(** * Module lifecycle manager of the modular bot

    A shallow embedding of [core/database.py], [core/module_loader.py] and the
    module-management handlers of [modules/system/manager.py], together with
    the properties of the lifecycle (load, unload, reload, delete, overwrite
    proposal, dependency provisioning).

    The Python code is asynchronous but strictly sequential inside one
    operation; every coroutine is embedded as a computation in a state and
    exception monad over a [World] holding what the code reads and writes:
    the loader's dictionary, [sys.modules], the two database tables, the file
    system, the process log, the calls made to foreign code and the chat
    replies. *)

From stdpp Require Import gmap strings list fin_maps pretty.
From Stdlib Require Import ZArith Ascii.

(** ** Python exceptions *)

(** [exc_is_Exception] tells whether the class derives from [Exception];
    [SystemExit], [KeyboardInterrupt] and [asyncio.CancelledError] derive from
    [BaseException] only, and an [except Exception] clause lets them pass. *)
Record PyExc := {
  exc_type : string;            (* type(e).__name__ *)
  exc_msg : string;             (* str(e) *)
  exc_traceback : string;       (* traceback.format_exc() while e is handled *)
  exc_is_Exception : bool
}.

(** A fault of the storage layer (tortoise / sqlite); always an [Exception]. *)
Record StorageError := { st_type : string; st_msg : string }.

Definition storage_exc (err : StorageError) : PyExc :=
  {| exc_type := st_type err; exc_msg := st_msg err;
     exc_traceback := "Traceback (most recent call last): " +:+ st_type err;
     exc_is_Exception := true |}.

(** ** Data model *)

(** [class ModuleInfo] of module_loader.py. *)
Module ModuleInfo.
Record t := mk {
  name : string;
  description : string;
  commands : gmap string string;
  is_system : bool;
  dependencies : list string
}.
Definition set_is_system (b : bool) (mi : t) : t :=
  {| name := name mi; description := description mi; commands := commands mi;
     is_system := b; dependencies := dependencies mi |}.
End ModuleInfo.

(** A row of table "modules" ([class ModuleRecord]). *)
Module ModuleRecord.
Record t := mk {
  id : nat;
  name : string;
  file_path : string;
  is_system : bool;
  is_active : bool;
  added_at : nat;
  updated_at : nat
}.
End ModuleRecord.

(** A row of table "error_logs" ([class ErrorLog]). *)
Module ErrorLog.
Record t := mk {
  id : nat;
  module_name : option string;
  error_type : string;
  error_message : string;
  traceback : option string;
  created_at : nat
}.
End ErrorLog.

(** What [await module.register(...)] evaluates to. *)
Inductive PyValue :=
| VModuleInfo (mi : ModuleInfo.t)
| VOther.                       (* any object that is not a ModuleInfo *)

Inductive RegisterResult :=
| RegisterRaises (e : PyExc)
| RegisterReturns (v : PyValue).

(** The content of a module file, as the loader observes it. *)
Record Artifact := {
  exec_raises : option PyExc;           (* spec.loader.exec_module(module) *)
  has_register : bool;                  (* hasattr(module, 'register') *)
  DEPENDENCIES : option (list string);  (* the module attribute, when present *)
  register_result : RegisterResult
}.

(** [subprocess.run(argv, capture_output=.., text=.., timeout=..)]. *)
Record RunCall := {
  argv : list string;
  capture_output : bool;
  text_mode : bool;
  timeout : Z
}.

Record CompletedProcess := {
  returncode : Z;
  stdout : string;
  stderr : string
}.

Inductive RunOutcome :=
| Completed (p : CompletedProcess)
| RunRaises (e : PyExc).        (* TimeoutExpired, OSError, ... *)

(** Calls that leave the loader: into the artifact's code and into the
    package installer. *)
Inductive Call :=
| CallExec (module_name : string)
| CallRegister (module_name : string)
| CallRun (c : RunCall).

Inductive Level := INFO | ERROR.
Record LogRecord := { level : Level; message : string }.

(** A chat reply: [lang.get(key, **kwargs)] and the inline keyboard as
    (button text key, callback data). *)
Record Reply := {
  reply_key : string;
  reply_kwargs : list (string * string);
  reply_keyboard : list (string * string)
}.

Record Document := { file_name : string; file_id : string }.

Record Message := {
  from_user_id : Z;
  text : string;
  reply_document : option Document   (* message.reply_to_message.document *)
}.

(** ** The world *)

Record World := {
  loaded_modules : gmap string ModuleInfo.t;   (* ModuleLoader.loaded_modules *)
  sys_modules : gset string;                   (* keys of sys.modules *)
  modules_table : gmap string ModuleRecord.t;  (* table "modules", by its unique name *)
  modules_next_id : nat;
  error_logs : list ErrorLog.t;                (* table "error_logs" *)
  admins : gset Z;                             (* table "admins", user_id column *)
  files : gmap string Artifact;                (* the file system *)
  log : list LogRecord;                        (* what logger.info/error emitted *)
  calls : list Call;
  outbox : list Reply;
  db_faults : list (option StorageError)       (* what the next storage calls will meet *)
}.

(** What the operations read but never write. *)
Record Env := {
  admin_id : Z;                                 (* config.admin_id *)
  now : nat;                                    (* the clock of auto_now fields *)
  sys_executable : string;
  has_file_loader : string → bool;              (* importlib finds a loader for the path *)
  run : list Call → RunCall → RunOutcome;       (* the installer, given the calls so far *)
  telegram_files : gmap string Artifact         (* file_id -> downloadable content *)
}.

Definition set_loaded_modules (f : gmap string ModuleInfo.t → gmap string ModuleInfo.t) (w : World) : World :=
  {| loaded_modules := f (loaded_modules w); sys_modules := sys_modules w;
     modules_table := modules_table w; modules_next_id := modules_next_id w;
     error_logs := error_logs w; admins := admins w; files := files w;
     log := log w; calls := calls w; outbox := outbox w; db_faults := db_faults w |}.

Definition set_sys_modules (f : gset string → gset string) (w : World) : World :=
  {| loaded_modules := loaded_modules w; sys_modules := f (sys_modules w);
     modules_table := modules_table w; modules_next_id := modules_next_id w;
     error_logs := error_logs w; admins := admins w; files := files w;
     log := log w; calls := calls w; outbox := outbox w; db_faults := db_faults w |}.

Definition set_modules_table (f : gmap string ModuleRecord.t → gmap string ModuleRecord.t) (w : World) : World :=
  {| loaded_modules := loaded_modules w; sys_modules := sys_modules w;
     modules_table := f (modules_table w); modules_next_id := modules_next_id w;
     error_logs := error_logs w; admins := admins w; files := files w;
     log := log w; calls := calls w; outbox := outbox w; db_faults := db_faults w |}.

Definition set_modules_next_id (n : nat) (w : World) : World :=
  {| loaded_modules := loaded_modules w; sys_modules := sys_modules w;
     modules_table := modules_table w; modules_next_id := n;
     error_logs := error_logs w; admins := admins w; files := files w;
     log := log w; calls := calls w; outbox := outbox w; db_faults := db_faults w |}.

Definition set_error_logs (f : list ErrorLog.t → list ErrorLog.t) (w : World) : World :=
  {| loaded_modules := loaded_modules w; sys_modules := sys_modules w;
     modules_table := modules_table w; modules_next_id := modules_next_id w;
     error_logs := f (error_logs w); admins := admins w; files := files w;
     log := log w; calls := calls w; outbox := outbox w; db_faults := db_faults w |}.

Definition set_files (f : gmap string Artifact → gmap string Artifact) (w : World) : World :=
  {| loaded_modules := loaded_modules w; sys_modules := sys_modules w;
     modules_table := modules_table w; modules_next_id := modules_next_id w;
     error_logs := error_logs w; admins := admins w; files := f (files w);
     log := log w; calls := calls w; outbox := outbox w; db_faults := db_faults w |}.

Definition set_log (f : list LogRecord → list LogRecord) (w : World) : World :=
  {| loaded_modules := loaded_modules w; sys_modules := sys_modules w;
     modules_table := modules_table w; modules_next_id := modules_next_id w;
     error_logs := error_logs w; admins := admins w; files := files w;
     log := f (log w); calls := calls w; outbox := outbox w; db_faults := db_faults w |}.

Definition set_calls (f : list Call → list Call) (w : World) : World :=
  {| loaded_modules := loaded_modules w; sys_modules := sys_modules w;
     modules_table := modules_table w; modules_next_id := modules_next_id w;
     error_logs := error_logs w; admins := admins w; files := files w;
     log := log w; calls := f (calls w); outbox := outbox w; db_faults := db_faults w |}.

Definition set_outbox (f : list Reply → list Reply) (w : World) : World :=
  {| loaded_modules := loaded_modules w; sys_modules := sys_modules w;
     modules_table := modules_table w; modules_next_id := modules_next_id w;
     error_logs := error_logs w; admins := admins w; files := files w;
     log := log w; calls := calls w; outbox := f (outbox w); db_faults := db_faults w |}.

Definition set_db_faults (fs : list (option StorageError)) (w : World) : World :=
  {| loaded_modules := loaded_modules w; sys_modules := sys_modules w;
     modules_table := modules_table w; modules_next_id := modules_next_id w;
     error_logs := error_logs w; admins := admins w; files := files w;
     log := log w; calls := calls w; outbox := outbox w; db_faults := fs |}.

(** ** The monad of coroutines *)

Inductive Result (A : Type) : Type :=
| Ret (a : A)
| Raise (e : PyExc).
Arguments Ret {A} a.
Arguments Raise {A} e.

Definition M (A : Type) : Type := World → Result A * World.

#[global] Instance M_ret : MRet M := λ A a w, (Ret a, w).

#[global] Instance M_bind : MBind M := λ A B k m w,
  match m w with
  | (Ret a, w') => k a w'
  | (Raise e, w') => (Raise e, w')
  end.

Definition raise {A} (e : PyExc) : M A := λ w, (Raise e, w).

Definition gets {A} (f : World → A) : M A := λ w, (Ret (f w), w).

Definition modify (f : World → World) : M unit := λ w, (Ret tt, f w).

(** [try: body except Exception as e: handler e]. *)
Definition try_except {A} (body : M A) (handler : PyExc → M A) : M A := λ w,
  match body w with
  | (Raise e, w') => if exc_is_Exception e then handler e w' else (Raise e, w')
  | r => r
  end.

Definition logger_info (msg : string) : M unit :=
  modify (set_log (λ l, l ++ [{| level := INFO; message := msg |}])).

Definition logger_error (msg : string) : M unit :=
  modify (set_log (λ l, l ++ [{| level := ERROR; message := msg |}])).

(** ** Strings *)

(** [str.isspace] on the ASCII range. *)
Definition isspace (c : Ascii.ascii) : bool :=
  let n := Ascii.nat_of_ascii c in
  ((9 <=? n) && (n <=? 13)) || ((28 <=? n) && (n <=? 32)).

Fixpoint lstrip (s : string) : string :=
  match s with
  | String c s' => if isspace c then lstrip s' else s
  | EmptyString => EmptyString
  end.

Fixpoint span_word (s : string) : string * string :=
  match s with
  | EmptyString => (EmptyString, EmptyString)
  | String c s' =>
      if isspace c then (EmptyString, s)
      else let '(w, r) := span_word s' in (String c w, r)
  end.

(** [s.split(maxsplit=1)]: at most two fields; the second keeps its trailing
    blanks. *)
Definition split_maxsplit1 (s : string) : list string :=
  match lstrip s with
  | EmptyString => []
  | s1 =>
      let '(w, r) := span_word s1 in
      match lstrip r with
      | EmptyString => [w]
      | r' => [w; r']
      end
  end.

Definition endswith (s suffix : string) : bool :=
  (String.length suffix <=? String.length s) &&
  String.eqb (String.substring (String.length s - String.length suffix) (String.length suffix) s) suffix.

(** [s[:-3]]. *)
Definition drop_last3 (s : string) : string :=
  String.substring 0 (String.length s - 3) s.

(** [str] of a list of specifiers free of quotes and escapes. *)
Definition repr_list (l : list string) : string :=
  "[" +:+ String.concat ", " (map (λ s, "'" +:+ s +:+ "'") l) +:+ "]".

(** ** core/database.py *)

Module database.
Section with_env.
Context (env : Env).

(** One round trip to the storage: it succeeds or meets the next scheduled
    fault. A statement of the ORM is atomic: when it faults it has written
    nothing. *)
Definition db_call : M unit := λ w,
  match db_faults w with
  | [] => (Ret tt, w)
  | None :: fs => (Ret tt, set_db_faults fs w)
  | Some err :: fs => (Raise (storage_exc err), set_db_faults fs w)
  end.

(** [cls.get_or_create(name=name, defaults={'file_path': .., 'is_system': ..})];
    [is_active] takes its column default, the timestamps are [auto_now_add] and
    [auto_now]. *)
Definition get_or_create (name file_path : string) (is_system : bool)
  : M (ModuleRecord.t * bool) :=
  db_call ;;
  table ← gets modules_table;
  match table !! name with
  | Some module => mret (module, false)
  | None =>
      next ← gets modules_next_id;
      let module := ModuleRecord.mk next name file_path is_system true (now env) (now env) in
      modify (set_modules_next_id (S next)) ;;
      modify (set_modules_table (insert name module)) ;;
      mret (module, true)
  end.

(** [await module.save()]; [updated_at] is [auto_now]. *)
Definition save (module : ModuleRecord.t) : M ModuleRecord.t :=
  db_call ;;
  let module' :=
    ModuleRecord.mk (ModuleRecord.id module) (ModuleRecord.name module)
      (ModuleRecord.file_path module) (ModuleRecord.is_system module)
      (ModuleRecord.is_active module) (ModuleRecord.added_at module) (now env) in
  modify (set_modules_table (insert (ModuleRecord.name module) module')) ;;
  mret module'.

(** [await module.delete()]. *)
Definition delete (module : ModuleRecord.t) : M unit :=
  db_call ;;
  modify (set_modules_table (base.delete (ModuleRecord.name module))).

(** [ModuleRecord.add_module]. *)
Definition add_module (name file_path : string) (is_system : bool) : M ModuleRecord.t :=
  try_except
    ('(module, created) ← get_or_create name file_path is_system;
     if negb created then
       save (ModuleRecord.mk (ModuleRecord.id module) (ModuleRecord.name module)
               file_path (ModuleRecord.is_system module) true
               (ModuleRecord.added_at module) (ModuleRecord.updated_at module))
     else mret module)
    (λ e, logger_error ("Error adding module: " +:+ exc_msg e) ;; raise e).

(** [ModuleRecord.get_module]: [cls.filter(name=name).first()]. *)
Definition get_module (name : string) : M (option ModuleRecord.t) :=
  try_except
    (db_call ;; gets (λ w, modules_table w !! name))
    (λ e, logger_error ("Error getting module: " +:+ exc_msg e) ;; mret None).

(** [ModuleRecord.delete_module]. *)
Definition delete_module (name : string) : M bool :=
  try_except
    (module ← get_module name;
     match module with
     | Some r =>
         if negb (ModuleRecord.is_system r) then delete r ;; mret true
         else mret false
     | None => mret false
     end)
    (λ e, logger_error ("Error deleting module: " +:+ exc_msg e) ;; mret false).

(** [ErrorLog.log_error]. *)
Definition log_error (error_type error_message : string)
    (module_name traceback : option string) : M unit :=
  try_except
    (db_call ;;
     modify (set_error_logs (λ rows,
       rows ++ [ErrorLog.mk (S (length rows)) module_name error_type error_message
                  traceback (now env)])))
    (λ e, logger_error ("Error logging to database: " +:+ exc_msg e)).

(** [Admin.is_admin]: [cls.filter(user_id=user_id).exists()]. *)
Definition is_admin (user_id : Z) : M bool :=
  try_except
    (db_call ;; gets (λ w, bool_decide (user_id ∈ admins w)))
    (λ e, logger_error ("Error checking admin status: " +:+ exc_msg e) ;; mret false).

End with_env.
End database.

(** ** core/module_loader.py *)

Module module_loader.
Section with_env.
Context (env : Env).

(** [subprocess.run]: the call is recorded, then completes or raises. *)
Definition subprocess_run (c : RunCall) : M CompletedProcess := λ w,
  let w' := set_calls (λ l, l ++ [CallRun c]) w in
  match run env (calls w) c with
  | Completed p => (Ret p, w')
  | RunRaises e => (Raise e, w')
  end.

Definition pip_install (dep : string) : RunCall :=
  {| argv := [sys_executable env; "-m"; "pip"; "install"; dep];
     capture_output := true; text_mode := true; timeout := 300 |}.

(** The [for dep in dependencies] loop of [_install_dependencies]; [false] is
    the early [return False], [true] is the loop running to its end. *)
Fixpoint install_each (dependencies : list string) : M bool :=
  match dependencies with
  | [] => mret true
  | dep :: rest =>
      subprocess_run (pip_install dep) ≫= λ result : CompletedProcess,
      if negb (returncode result =? 0)%Z then
        logger_error ("Failed to install " +:+ dep +:+ ": " +:+ stderr result) ;;
        mret false
      else install_each rest
  end.

(** [ModuleLoader._install_dependencies]. *)
Definition _install_dependencies (dependencies : list string) (module_name : string) : M bool :=
  try_except (A := bool)
    (logger_info ("Installing dependencies for " +:+ module_name +:+ ": "
                  +:+ repr_list dependencies) ;;
     install_each dependencies ≫= λ completed : bool,
     if completed then
       logger_info ("Dependencies installed successfully for " +:+ module_name) ;;
       mret true
     else mret false)
    (λ e, logger_error ("Error installing dependencies for " +:+ module_name +:+ ": "
                        +:+ exc_msg e) ;;
          mret false).

(** [spec.loader.exec_module(module)]: runs the top level of the file. *)
Definition exec_module (module_name : string) (module : Artifact) : M unit :=
  modify (set_calls (λ l, l ++ [CallExec module_name])) ;;
  match exec_raises module with
  | Some e => raise e
  | None => mret tt
  end.

(** [await module.register(self.bot, self.dp, self.config, self.localization)]. *)
Definition call_register (module_name : string) (module : Artifact) : M PyValue :=
  modify (set_calls (λ l, l ++ [CallRegister module_name])) ;;
  match register_result module with
  | RegisterRaises e => raise e
  | RegisterReturns v => mret v
  end.

(** The dependency block of [load_module]: [true] when the load goes on
    (no [DEPENDENCIES] attribute, an empty list, or a successful install). *)
Definition check_dependencies (module : Artifact) (module_name : string) : M bool :=
  match DEPENDENCIES module with
  | Some (dep :: rest) => _install_dependencies (dep :: rest) module_name
  | _ => mret true
  end.

(** The registration block of [load_module]: the entrypoint is awaited and a
    [ModuleInfo] result is tagged, put in the Catalog and upserted. *)
Definition register_module (file_path module_name : string) (is_system : bool)
    (module : Artifact) : M bool :=
  call_register module_name module ≫= λ module_info : PyValue,
  match module_info with
  | VModuleInfo mi =>
      modify (set_loaded_modules
                (insert module_name (ModuleInfo.set_is_system is_system mi))) ;;
      database.add_module env module_name file_path is_system ;;
      logger_info ("Module " +:+ module_name +:+ " loaded successfully") ;;
      mret true
  | VOther =>
      logger_error ("Module " +:+ module_name +:+ " returned invalid ModuleInfo") ;;
      mret false
  end.

(** The [try] block of [load_module]. *)
Definition load_module_try (file_path module_name : string) (is_system : bool) : M bool :=
  gets files ≫= λ fs : gmap string Artifact,
  match fs !! file_path with
  | None =>
      logger_error ("Module file not found: " +:+ file_path) ;;
      mret false
  | Some module =>
      if negb (has_file_loader env file_path) then
        logger_error ("Cannot load spec for module: " +:+ module_name) ;;
        mret false
      else
        modify (set_sys_modules (λ s, {[module_name]} ∪ s)) ;;
        exec_module module_name module ;;
        if negb (has_register module) then
          logger_error ("Module " +:+ module_name +:+ " has no 'register' function") ;;
          mret false
        else
          check_dependencies module module_name ≫= λ install_success : bool,
          if negb install_success then mret false
          else register_module file_path module_name is_system module
  end.

(** The [except Exception as e] block of [load_module]. *)
Definition load_module_except (module_name : string) (e : PyExc) : M bool :=
  logger_error ("Error loading module " +:+ module_name +:+ ": " +:+ exc_msg e) ;;
  database.log_error env (exc_type e) (exc_msg e) (Some module_name)
    (Some (exc_traceback e)) ;;
  mret false.

(** [ModuleLoader.load_module]. *)
Definition load_module (file_path module_name : string) (is_system : bool) : M bool :=
  try_except (load_module_try file_path module_name is_system)
             (load_module_except module_name).

(** [ModuleLoader.unload_module]; nothing in its body can raise. *)
Definition unload_module (module_name : string) : M bool :=
  try_except (A := bool)
    (gets loaded_modules ≫= λ catalog : gmap string ModuleInfo.t,
     if decide (is_Some (catalog !! module_name)) then
       modify (set_loaded_modules (base.delete module_name)) ;;
       modify (set_sys_modules (λ s, s ∖ {[module_name]})) ;;
       logger_info ("Module " +:+ module_name +:+ " unloaded") ;;
       mret true
     else mret false)
    (λ e, logger_error ("Error unloading module " +:+ module_name +:+ ": " +:+ exc_msg e) ;;
          mret false).

(** [ModuleLoader.reload_module]. *)
Definition reload_module (module_name : string) : M bool :=
  try_except (A := bool)
    (database.get_module module_name ≫= λ module_record : option ModuleRecord.t,
     match module_record with
     | None => mret false
     | Some r =>
         unload_module module_name ;;
         load_module (ModuleRecord.file_path r) module_name (ModuleRecord.is_system r)
     end)
    (λ e, logger_error ("Error reloading module " +:+ module_name +:+ ": " +:+ exc_msg e) ;;
          mret false).

(** [ModuleLoader.get_module_info]. *)
Definition get_module_info (module_name : string) (w : World) : option ModuleInfo.t :=
  loaded_modules w !! module_name.

End with_env.
End module_loader.

(** ** modules/system/manager.py *)

Module manager.

Record CallbackQuery := { data : string; callback_message : Message }.

Section with_env.
Context (env : Env).

(** [await message.answer(lang.get(key, **kwargs), reply_markup=keyboard)]. *)
Definition answer (key : string) (kwargs keyboard : list (string * string)) : M unit :=
  modify (set_outbox (λ l, l ++ [{| reply_key := key; reply_kwargs := kwargs;
                                    reply_keyboard := keyboard |}])).

Definition is_admin (user_id : Z) : M bool :=
  if decide (user_id = admin_id env) then mret true
  else database.is_admin user_id.

Definition admin_required (message : Message) : M bool :=
  is_admin (from_user_id message) ≫= λ ok : bool,
  if negb ok then answer "not_admin" [] [] ;; mret false
  else mret true.

(** [bot.get_file] followed by [bot.download_file(.., file_path)]. *)
Definition download_file (document : Document) (file_path : string) : M unit :=
  match telegram_files env !! file_id document with
  | None =>
      raise {| exc_type := "TelegramBadRequest"; exc_msg := "file not found";
               exc_traceback := "Traceback (most recent call last): TelegramBadRequest";
               exc_is_Exception := true |}
  | Some content => modify (set_files (insert file_path content))
  end.

(** [_load_module_from_file]; [module_name] is a plain file stem, so the path
    joins to [modules/user/<module_name>.py]. *)
Definition _load_module_from_file (message : Message) (document : Document)
    (module_name : string) (overwrite : bool) : M unit :=
  try_except (A := unit)
    (let file_path := "modules/user/" +:+ module_name +:+ ".py" in
     download_file document file_path ;;
     (if overwrite then module_loader.unload_module module_name ;; mret tt else mret tt) ;;
     module_loader.load_module env file_path module_name false ≫= λ success : bool,
     if success then
       if overwrite then answer "module_updated" [("name", module_name)] []
       else answer "module_loaded" [("name", module_name)] []
     else answer "module_error" [("name", module_name); ("error", "Ошибка регистрации")] [])
    (λ e, logger_error ("Error loading module from file: " +:+ exc_msg e) ;;
          answer "module_error" [("name", module_name); ("error", exc_msg e)] []).

(** [load_module_handler]: the /lm command. *)
Definition load_module_handler (message : Message) : M unit :=
  admin_required message ≫= λ ok : bool,
  if negb ok then mret tt
  else
    try_except (A := unit)
      match reply_document message with
      | None => answer "reply_to_file" [] []
      | Some document =>
          if negb (endswith (file_name document) ".py") then answer "invalid_file" [] []
          else
            let module_name := drop_last3 (file_name document) in
            gets loaded_modules ≫= λ catalog : gmap string ModuleInfo.t,
            if decide (is_Some (catalog !! module_name)) then
              answer "module_conflict" [("name", module_name)]
                [("yes", "overwrite_lm_" +:+ module_name); ("no", "cancel_load")]
            else _load_module_from_file message document module_name false
      end
      (λ e, logger_error ("Error in load_module_handler: " +:+ exc_msg e) ;;
            answer "module_error" [("name", "unknown"); ("error", exc_msg e)] []).

(** [cancel_load_callback]: edits the question into the "canceled" text. *)
Definition cancel_load_callback (callback : CallbackQuery) : M unit :=
  answer "canceled" [] [].

(** [unload_module_handler]: the /ulm command. *)
Definition unload_module_handler (message : Message) : M unit :=
  admin_required message ≫= λ ok : bool,
  if negb ok then mret tt
  else
    let args := split_maxsplit1 (text message) in
    try_except (A := unit)
      match args with
      | [] | [_] => answer "provide_module_name" [] []
      | _ :: module_name :: _ =>
          database.get_module module_name ≫= λ module_record : option ModuleRecord.t,
          match module_record with
          | None => answer "module_not_found" [("name", module_name)] []
          | Some r =>
              if ModuleRecord.is_system r then
                answer "module_predefined" [("name", module_name)] []
              else
                module_loader.unload_module module_name ;;
                database.delete_module module_name ;;
                modify (set_files (base.delete (ModuleRecord.file_path r))) ;;
                answer "module_deleted" [("name", module_name)] []
          end
      end
      (λ e, logger_error ("Error in unload_module_handler: " +:+ exc_msg e) ;;
            answer "module_error" [("name", nth 1 args "unknown"); ("error", exc_msg e)] []).

End with_env.
End manager.

(** ** Concrete inputs used by the examples *)

Definition completed_ok : RunOutcome :=
  Completed {| returncode := 0; stdout := "ok"; stderr := "" |}.

(** An installer on which every package installs. *)
Definition env0 : Env :=
  {| admin_id := 1; now := 100; sys_executable := "python3";
     has_file_loader := λ p, endswith p ".py";
     run := λ _ _, completed_ok;
     telegram_files := ∅ |}.

Definition world0 : World :=
  {| loaded_modules := ∅; sys_modules := ∅; modules_table := ∅; modules_next_id := 1;
     error_logs := []; admins := ∅; files := ∅; log := []; calls := []; outbox := [];
     db_faults := [] |}.

Definition foo_info : ModuleInfo.t :=
  ModuleInfo.mk "foo" "a module" {[ "hello" := "says hello" ]} false [].

(** A well-formed module without dependencies. *)
Definition foo_artifact : Artifact :=
  {| exec_raises := None; has_register := true; DEPENDENCIES := None;
     register_result := RegisterReturns (VModuleInfo foo_info) |}.

Definition foo_path : string := "modules/user/foo.py".

Definition world_foo_file : World := set_files (insert foo_path foo_artifact) world0.

(** An installer that finds no distribution for any specifier. *)
Definition env_no_index : Env :=
  {| admin_id := 1; now := 100; sys_executable := "python3";
     has_file_loader := λ p, endswith p ".py";
     run := λ _ c,
       Completed {| returncode := 1; stdout := "";
                    stderr := "No matching distribution found for " +:+ List.last (argv c) "" |};
     telegram_files := ∅ |}.

(** An installer that knows every package except "beta". *)
Definition env_no_beta : Env :=
  {| admin_id := 1; now := 100; sys_executable := "python3";
     has_file_loader := λ p, endswith p ".py";
     run := λ _ c,
       if String.eqb (List.last (argv c) "") "beta"
       then Completed {| returncode := 1; stdout := ""; stderr := "no beta" |}
       else completed_ok;
     telegram_files := ∅ |}.

(** The world right after [exec_module] has run the file's top level. *)
Definition after_exec (module_name : string) (w : World) : World :=
  set_calls (λ l, l ++ [CallExec module_name])
    (set_sys_modules (λ s, {[module_name]} ∪ s) w).

(** The Error Sink row that [load_module] writes for a caught fault. *)
Definition sink_row (env : Env) (w : World) (module_name : string) (e : PyExc) : ErrorLog.t :=
  ErrorLog.mk (S (length (error_logs w))) (Some module_name) (exc_type e) (exc_msg e)
    (Some (exc_traceback e)) (now env).

Definition db_locked : StorageError :=
  {| st_type := "OperationalError"; st_msg := "database is locked" |}.



Definition value_error : PyExc :=
  {| exc_type := "ValueError"; exc_msg := "bad value";
     exc_traceback := "Traceback (most recent call last): ValueError: bad value";
     exc_is_Exception := true |}.


Definition broken_artifact : Artifact :=
  {| exec_raises := Some value_error; has_register := true; DEPENDENCIES := None;
     register_result := RegisterReturns (VModuleInfo foo_info) |}.


Definition world_broken_file : World := set_files (insert foo_path broken_artifact) world0.


(** A module file without a [register] function. *)
Definition no_register_artifact : Artifact :=
  {| exec_raises := None; has_register := false; DEPENDENCIES := None;
     register_result := RegisterReturns VOther |}.

(** A module that needs "beta" at module level. *)
Definition beta_artifact : Artifact :=
  {| exec_raises := None; has_register := true; DEPENDENCIES := Some ["beta"];
     register_result := RegisterReturns (VModuleInfo foo_info) |}.

Definition old_foo_info : ModuleInfo.t :=
  ModuleInfo.mk "foo" "the previous version" ∅ false [].

Definition foo_record : ModuleRecord.t :=
  ModuleRecord.mk 1 "foo" foo_path false true 50 50.


(** A module whose descriptor declares a dependency while the file has no
    module-level [DEPENDENCIES]. *)
Definition declared_only_artifact : Artifact :=
  {| exec_raises := None; has_register := true; DEPENDENCIES := None;
     register_result :=
       RegisterReturns (VModuleInfo (ModuleInfo.mk "foo" "a module" ∅ false ["requests"])) |}.

(** The Registry row of the system module "manager". *)
Definition manager_record : ModuleRecord.t :=
  ModuleRecord.mk 1 "manager" "modules/system/manager.py" true true 10 10.

Definition world_manager : World :=
  set_modules_table (insert "manager" manager_record) (set_modules_next_id 2 world0).

(** "/lm" sent by the configured principal in reply to the file "foo.py". *)
Definition lm_foo_message : Message :=
  {| from_user_id := 1; text := "/lm";
     reply_document := Some {| file_name := "foo.py"; file_id := "file-1" |} |}.

(** "foo" is live and registered as a User module; its file is in place. *)
Definition world_foo_user : World :=
  set_loaded_modules (insert "foo" old_foo_info)
    (set_sys_modules (λ s, {["foo"]} ∪ s)
       (set_modules_table (insert "foo" foo_record)
          (set_modules_next_id 2 world_foo_file))).

Definition ulm_message (name : string) : Message :=
  {| from_user_id := 1; text := "/ulm " +:+ name; reply_document := None |}.

(** What an operation that only logs and calls out leaves alone. *)
Definition stores_unchanged (w w' : World) : Prop :=
  loaded_modules w' = loaded_modules w ∧ sys_modules w' = sys_modules w ∧
  modules_table w' = modules_table w ∧ modules_next_id w' = modules_next_id w ∧
  error_logs w' = error_logs w ∧ admins w' = admins w ∧ files w' = files w ∧
  outbox w' = outbox w ∧ db_faults w' = db_faults w.

(** The installer completes with exit status 0 on each of [deps] in turn,
    starting from the calls already made. *)
Fixpoint installs_ok (env : Env) (history : list Call) (deps : list string) : bool :=
  match deps with
  | [] => true
  | dep :: rest =>
      match run env history (module_loader.pip_install env dep) with
      | Completed p =>
          (returncode p =? 0)%Z &&
          installs_ok env (history ++ [CallRun (module_loader.pip_install env dep)]) rest
      | RunRaises _ => false
      end
  end.

(** The installer invocations for a list of specifiers, in list order. *)
Definition install_calls (env : Env) (deps : list string) : list Call :=
  map (λ dep, CallRun (module_loader.pip_install env dep)) deps.

(* ===================================================================== *)
(** * The rest of the lifecycle code *)

(** ** Paths and tokens *)

Fixpoint has_slash (s : string) : bool :=
  match s with
  | EmptyString => false
  | String c rest => Ascii.eqb c "/"%char || has_slash rest
  end.

(** [Path(p).name]: what follows the last slash. *)
Fixpoint path_name (p : string) : string :=
  match p with
  | EmptyString => EmptyString
  | String _ rest => if has_slash p then path_name rest else p
  end.

(** [s.rfind(c)]. *)
Fixpoint rfind (c : Ascii.ascii) (s : string) : option nat :=
  match s with
  | EmptyString => None
  | String d rest =>
      match rfind c rest with
      | Some i => Some (S i)
      | None => if Ascii.eqb c d then Some 0 else None
      end
  end.

(** [Path(p).stem]: the name without its last suffix; a leading or a
    trailing dot starts no suffix. *)
Definition path_stem (p : string) : string :=
  let name := path_name p in
  match rfind "."%char name with
  | Some i =>
      if (0 <? i) && (i <? String.length name - 1) then String.substring 0 i name
      else name
  | None => name
  end.

Definition startswith (s prefix : string) : bool := String.prefix prefix s.

(** The recursion of [s.split(sep, maxsplit)] for a one-character separator;
    [cur] is the field being read. *)
Fixpoint split_go (sep : Ascii.ascii) (maxsplit : nat) (cur s : string) : list string :=
  match s with
  | EmptyString => [cur]
  | String c rest =>
      match maxsplit with
      | S m =>
          if Ascii.eqb c sep then cur :: split_go sep m EmptyString rest
          else split_go sep maxsplit (cur +:+ String c EmptyString) rest
      | O => split_go sep maxsplit (cur +:+ String c EmptyString) rest
      end
  end.

Definition split_on (sep : Ascii.ascii) (maxsplit : nat) (s : string) : list string :=
  split_go sep maxsplit EmptyString s.

(** ** The views of the Catalog (module_loader.py) *)

Module catalog.

(** [ModuleLoader.get_all_system_modules]. *)
Definition get_all_system_modules (w : World) : gmap string ModuleInfo.t :=
  filter (λ kv, ModuleInfo.is_system kv.2 = true) (loaded_modules w).

(** [ModuleLoader.get_all_user_modules]. *)
Definition get_all_user_modules (w : World) : gmap string ModuleInfo.t :=
  filter (λ kv, ModuleInfo.is_system kv.2 = false) (loaded_modules w).

End catalog.

(** ** Startup (module_loader.py) *)

Module startup.
Section with_env.
Context (env : Env).

(** The body of the [for file_path in directory.glob("*.py")] loop, over the
    paths the glob yields, in the order it yields them. *)
Fixpoint load_each (paths : list string) (is_system : bool) : M unit :=
  match paths with
  | [] => mret tt
  | file_path :: rest =>
      if startswith (path_name file_path) "_" then load_each rest is_system
      else
        let module_name := path_stem file_path in
        try_except (A := unit)
          (module_loader.load_module env file_path module_name is_system ;; mret tt)
          (λ e, logger_error ("Failed to load module " +:+ module_name +:+ ": "
                              +:+ exc_msg e)) ;;
        load_each rest is_system
  end.

(** [ModuleLoader._load_modules_from_directory]; [paths] is what
    [directory.glob("*.py")] yields. *)
Definition _load_modules_from_directory (directory : string) (paths : list string)
    (is_system : bool) : M unit :=
  try_except (A := unit)
    (load_each paths is_system)
    (λ e, logger_error ("Error loading from directory " +:+ directory +:+ ": "
                        +:+ exc_msg e)).

(** [ModuleLoader.load_all_modules]. *)
Definition load_all_modules (system_paths user_paths : list string) : M unit :=
  try_except (A := unit)
    (_load_modules_from_directory "modules/system" system_paths true ;;
     _load_modules_from_directory "modules/user" user_paths false ;;
     gets loaded_modules ≫= λ catalog : gmap string ModuleInfo.t,
     logger_info ("Total modules loaded: " +:+ pretty (size catalog)))
    (λ e, logger_error ("Error loading modules: " +:+ exc_msg e)).

End with_env.
End startup.

(** ** Confirming an overwrite (manager.py) *)

Module confirm.
Section with_env.
Context (env : Env).

Definition index_error : PyExc :=
  {| exc_type := "IndexError"; exc_msg := "list index out of range";
     exc_traceback := "Traceback (most recent call last): IndexError";
     exc_is_Exception := true |}.

Definition attribute_error : PyExc :=
  {| exc_type := "AttributeError";
     exc_msg := "'NoneType' object has no attribute 'document'";
     exc_traceback := "Traceback (most recent call last): AttributeError";
     exc_is_Exception := true |}.

(** The callback data that [load_module_handler] puts on the "yes" button. *)
Definition overwrite_token (module_name : string) : string :=
  "overwrite_lm_" +:+ module_name.

(** [callback.data.split("_", 2)[2]]. *)
Definition token_module_name (data : string) : option string :=
  split_on "_"%char 2 data !! 2.

(** [overwrite_module_callback]; a question that replies to no message makes
    [callback.message.reply_to_message.document] raise. The acknowledgement
    of the button and the deletion of the question only touch the chat. *)
Definition overwrite_module_callback (callback : manager.CallbackQuery) : M unit :=
  try_except (A := unit)
    match token_module_name (manager.data callback) with
    | None => raise index_error
    | Some module_name =>
        match reply_document (manager.callback_message callback) with
        | None => raise attribute_error
        | Some document =>
            manager._load_module_from_file env (manager.callback_message callback)
              document module_name true
        end
    end
    (λ e, logger_error ("Error in overwrite callback: " +:+ exc_msg e) ;;
          manager.answer "module_error" [("name", "unknown"); ("error", exc_msg e)] []).

End with_env.
End confirm.

(** ** Registry listing and database bootstrap (database.py) *)

Definition set_admins (f : gset Z → gset Z) (w : World) : World :=
  {| loaded_modules := loaded_modules w; sys_modules := sys_modules w;
     modules_table := modules_table w; modules_next_id := modules_next_id w;
     error_logs := error_logs w; admins := f (admins w); files := files w;
     log := log w; calls := calls w; outbox := outbox w; db_faults := db_faults w |}.

Module listing.
Section with_env.
Context (env : Env).

(** The WHERE clause of [get_all_modules]: [is_active=True] and, when a
    filter is given, [is_system=<filter>]. *)
Definition row_selected (is_system : option bool) (r : ModuleRecord.t) : bool :=
  ModuleRecord.is_active r &&
  match is_system with
  | Some b => Bool.eqb (ModuleRecord.is_system r) b
  | None => true
  end.

(** [ModuleRecord.get_all_modules]; the order of the rows is the storage's. *)
Definition get_all_modules (is_system : option bool) : M (list ModuleRecord.t) :=
  try_except
    (database.db_call ;;
     gets (λ w, filter (λ r, row_selected is_system r = true)
                  (map_to_list (modules_table w)).*2))
    (λ e, logger_error ("Error getting modules: " +:+ exc_msg e) ;; mret []).

(** [init_db]: [Tortoise.init], [Tortoise.generate_schemas], then the row of
    the configured principal; [config.admin_id] is read from the
    environment. *)
Definition init_db : M unit :=
  try_except (A := unit)
    (database.db_call ;;
     database.db_call ;;
     logger_info "Database initialized successfully" ;;
     if decide (admin_id env = 0%Z) then mret tt
     else
       (database.db_call ;; gets (λ w, bool_decide (admin_id env ∈ admins w)))
         ≫= λ admin_exists : bool,
       if negb admin_exists then
         database.db_call ;;
         modify (set_admins (λ s, {[admin_id env]} ∪ s)) ;;
         logger_info ("Main admin " +:+ pretty (admin_id env) +:+ " initialized")
       else mret tt)
    (λ e, logger_error ("Database initialization error: " +:+ exc_msg e) ;; raise e).

End with_env.
End listing.

(** ** Escaping in the help texts (manager.py) *)

(** [s.replace(c, by)] for a one-character [c]. *)
Fixpoint replace_char (c : Ascii.ascii) (by_ : string) (s : string) : string :=
  match s with
  | EmptyString => EmptyString
  | String d rest =>
      if Ascii.eqb d c then by_ +:+ replace_char c by_ rest
      else String d (replace_char c by_ rest)
  end.

(** [text.replace('<', '&lt;').replace('>', '&gt;')], as the help handlers
    apply it to module names, descriptions and command texts. *)
Definition safe_text (s : string) : string :=
  replace_char ">" "&gt;" (replace_char "<" "&lt;" s).

Fixpoint contains_char (c : Ascii.ascii) (s : string) : bool :=
  match s with
  | EmptyString => false
  | String d rest => Ascii.eqb d c || contains_char c rest
  end.

(** ** Invariant of the Registry *)

(** Rows are stored under their own name, ids are below the counter and
    pairwise distinct, and every row is active. *)
Record registry_wf (w : World) : Prop := {
  wf_keyed : ∀ k r, modules_table w !! k = Some r → ModuleRecord.name r = k;
  wf_ids_below : ∀ k r, modules_table w !! k = Some r → ModuleRecord.id r < modules_next_id w;
  wf_ids_distinct : ∀ k1 k2 r1 r2,
    modules_table w !! k1 = Some r1 → modules_table w !! k2 = Some r2 →
    ModuleRecord.id r1 = ModuleRecord.id r2 → k1 = k2;
  wf_active : ∀ k r, modules_table w !! k = Some r → ModuleRecord.is_active r = true
}.

(** The row an upsert of [name] leaves in the Registry. *)
Definition upserted_row (env : Env) (w : World) (name file_path : string)
    (is_system : bool) : ModuleRecord.t :=
  match modules_table w !! name with
  | Some r =>
      ModuleRecord.mk (ModuleRecord.id r) (ModuleRecord.name r) file_path
        (ModuleRecord.is_system r) true (ModuleRecord.added_at r) (now env)
  | None =>
      ModuleRecord.mk (modules_next_id w) name file_path is_system true (now env) (now env)
  end.

(** ** More concrete inputs *)

Definition bar_info : ModuleInfo.t :=
  ModuleInfo.mk "bar" "claims to be a system module" ∅ true [].

Definition bar_artifact : Artifact :=
  {| exec_raises := None; has_register := true; DEPENDENCIES := None;
     register_result := RegisterReturns (VModuleInfo bar_info) |}.

(** A module whose registration entrypoint raises. *)
Definition failing_register_artifact : Artifact :=
  {| exec_raises := None; has_register := true; DEPENDENCIES := None;
     register_result := RegisterRaises value_error |}.

(** Telegram can deliver "file-1" (the new "foo") and "file-2" (a module whose
    entrypoint raises). *)
Definition env_telegram : Env :=
  {| admin_id := 1; now := 200; sys_executable := "python3";
     has_file_loader := λ p, endswith p ".py";
     run := λ _ _, completed_ok;
     telegram_files := {[ "file-1" := foo_artifact; "file-2" := failing_register_artifact ]} |}.

Definition lm_message (user : Z) (name fid : string) : Message :=
  {| from_user_id := user; text := "/lm";
     reply_document := Some {| file_name := name; file_id := fid |} |}.


(* ===================================================================== *)
(** * Properties *)

Ltac unfold_monad :=
  unfold logger_info, logger_error in *;
  unfold mbind, M_bind, mret, M_ret, raise, gets, modify, try_except in *.

Ltac step_pair :=
  match goal with
  | H : (_, _) = (_, _) |- _ => inversion H; subst; clear H
  end.

Import module_loader.

Lemma stores_unchanged_refl w : stores_unchanged w w.
Proof. by repeat split. Qed.

Lemma stores_unchanged_trans w1 w2 w3 :
  stores_unchanged w1 w2 → stores_unchanged w2 w3 → stores_unchanged w1 w3.
Proof.
  unfold stores_unchanged. intros H1 H2.
  destruct H1 as (?&?&?&?&?&?&?&?&?), H2 as (?&?&?&?&?&?&?&?&?).
  repeat split; congruence.
Qed.

(** ** Unload *)

Lemma unload_module_absent (w : World) (module_name : string) :
  loaded_modules w !! module_name = None →
  unload_module module_name w = (Ret false, w).
Proof.
  intros Habs. unfold unload_module. unfold_monad.
  destruct (decide (is_Some (loaded_modules w !! module_name))) as [[x Hx]|Hn]; [congruence|done].
Qed.

Lemma unload_module_result (w : World) (module_name : string) :
  ∃ b w', unload_module module_name w = (Ret b, w') ∧
          loaded_modules w' !! module_name = None ∧
          loaded_modules w' = base.delete module_name (loaded_modules w) ∧
          modules_table w' = modules_table w ∧ modules_next_id w' = modules_next_id w ∧
          files w' = files w ∧ error_logs w' = error_logs w ∧
          db_faults w' = db_faults w ∧ calls w' = calls w ∧ outbox w' = outbox w ∧
          (b = true ↔ is_Some (loaded_modules w !! module_name)).
Proof.
  unfold unload_module. unfold_monad.
  destruct (decide (is_Some (loaded_modules w !! module_name))) as [Hs|Hn]; simpl.
  - eexists true, _. split; [reflexivity|]. simpl.
    rewrite lookup_delete_eq. repeat split; auto.
  - eexists false, _. split; [reflexivity|].
    assert (loaded_modules w !! module_name = None) as Hnone.
    { destruct (loaded_modules w !! module_name) eqn:E; [exfalso; apply Hn; eauto|done]. }
    rewrite delete_id by done. repeat split; auto; try done.
Qed.

(** C9: unloading a name that has no Catalog entry returns [False] without
    raising and leaves the whole world (Catalog, Registry, artifact storage
    and everything else) as it was; hence, of two unloads in succession, the
    second returns [False] and changes nothing. *)
Theorem unload_absent_is_noop (w : World) (module_name : string) :
  (loaded_modules w !! module_name = None →
     unload_module module_name w = (Ret false, w)) ∧
  (∀ r1 w1, unload_module module_name w = (r1, w1) →
     unload_module module_name w1 = (Ret false, w1)).
Proof.
  split; [apply unload_module_absent|].
  intros r1 w1 H1. apply unload_module_absent.
  destruct (unload_module_result w module_name) as (b & w' & Heq & Hnone & _).
  rewrite Heq in H1. by simplify_eq.
Qed.

(** ** Registry *)

Import database.

Ltac unfold_db :=
  unfold add_module, delete_module, log_error, database.is_admin in *;
  unfold get_module, get_or_create, save, database.delete in *;
  unfold db_call in *.

(** [get_module] never raises; it answers the stored row, or [None] when the
    storage faults. *)
Lemma get_module_result (name : string) (w : World) :
  ∃ o w', get_module name w = (Ret o, w') ∧
    loaded_modules w' = loaded_modules w ∧ sys_modules w' = sys_modules w ∧
    modules_table w' = modules_table w ∧ modules_next_id w' = modules_next_id w ∧
    error_logs w' = error_logs w ∧ admins w' = admins w ∧ files w' = files w ∧
    calls w' = calls w ∧ outbox w' = outbox w ∧
    (o = None ∨ o = modules_table w !! name) ∧
    (db_faults w = [] → o = modules_table w !! name ∧ w' = w).
Proof.
  unfold_db. unfold_monad.
  destruct (db_faults w) as [|[err|] fs] eqn:E; simpl;
    eexists _, _; (split; [reflexivity|]); simpl; repeat split; auto; done.
Qed.

(** [delete_module] never raises, touches nothing but the Registry, and
    removes at most the row of [name]. *)
Lemma delete_module_result (name : string) (w : World) :
  ∃ b w', delete_module name w = (Ret b, w') ∧
    loaded_modules w' = loaded_modules w ∧ sys_modules w' = sys_modules w ∧
    modules_next_id w' = modules_next_id w ∧
    error_logs w' = error_logs w ∧ admins w' = admins w ∧ files w' = files w ∧
    calls w' = calls w ∧ outbox w' = outbox w ∧
    (b = false → modules_table w' = modules_table w) ∧
    (b = true → ∃ r, modules_table w !! name = Some r ∧ ModuleRecord.is_system r = false ∧
                     modules_table w' = base.delete (ModuleRecord.name r) (modules_table w)).
Proof.
  unfold_db. unfold_monad.
  destruct (db_faults w) as [|[err|] fs] eqn:E; simpl.
  - destruct (modules_table w !! name) as [r|] eqn:Hr; simpl.
    + destruct (ModuleRecord.is_system r) eqn:Hs; simpl; rewrite ?E; simpl;
        eexists _, _; (split; [reflexivity|]); simpl; repeat split; eauto; done.
    + eexists _, _; (split; [reflexivity|]); simpl; repeat split; eauto; done.
  - eexists _, _; (split; [reflexivity|]); simpl; repeat split; eauto; done.
  - destruct (modules_table w !! name) as [r|] eqn:Hr; simpl.
    + destruct (ModuleRecord.is_system r) eqn:Hs; simpl.
      * eexists _, _; (split; [reflexivity|]); simpl; repeat split; eauto; done.
      * destruct fs as [|[err|] fs']; simpl;
          eexists _, _; (split; [reflexivity|]); simpl; repeat split; eauto; done.
    + eexists _, _; (split; [reflexivity|]); simpl; repeat split; eauto; done.
Qed.

(** [add_module] touches only the Registry (and the process log); when it
    raises, the fault is a storage [Exception] and the Registry is as before. *)
Lemma add_module_frame (env : Env) (name file_path : string) (is_system : bool)
    (w w' : World) (res : Result ModuleRecord.t) :
  add_module env name file_path is_system w = (res, w') →
  loaded_modules w' = loaded_modules w ∧ sys_modules w' = sys_modules w ∧
  error_logs w' = error_logs w ∧ admins w' = admins w ∧ files w' = files w ∧
  calls w' = calls w ∧ outbox w' = outbox w ∧
  (∀ e, res = Raise e →
     exc_is_Exception e = true ∧ modules_table w' = modules_table w ∧
     modules_next_id w' = modules_next_id w ∧
     (∃ err rest, db_faults w = rest ++ Some err :: db_faults w' ∧ e = storage_exc err)) ∧
  (db_faults w = [] → ∃ m, res = Ret m ∧ db_faults w' = []).
Proof.
  unfold_db. unfold_monad. intros H.
  destruct (db_faults w) as [|[err|] fs] eqn:E; simpl in H.
  - destruct (modules_table w !! name) as [r|] eqn:Hr; simpl in H; rewrite ?E in H;
      simpl in H; simplify_eq; simpl; repeat split; eauto; done.
  - simplify_eq; simpl. repeat split; auto; try done; simplify_eq; try done.
    by exists err, [].
  - destruct (modules_table w !! name) as [r|] eqn:Hr; simpl in H.
    + destruct fs as [|[err|] fs']; simpl in H; simplify_eq; simpl; repeat split; eauto;
        try done; simplify_eq; try done.
      by exists err, [None].
    + simplify_eq; simpl; repeat split; eauto; done.
Qed.

(** Upsert of a name that already has a row: the row keeps its id, name,
    origin class and creation time; on success it takes the new path, becomes
    active and its [updated_at] is bumped. *)
Lemma add_module_existing (env : Env) (name file_path : string) (is_system : bool)
    (w w' : World) (res : Result ModuleRecord.t) (r : ModuleRecord.t) :
  modules_table w !! name = Some r →
  ModuleRecord.name r = name →
  add_module env name file_path is_system w = (res, w') →
  (∃ e, res = Raise e ∧ modules_table w' = modules_table w) ∨
  (let r' := ModuleRecord.mk (ModuleRecord.id r) name file_path
               (ModuleRecord.is_system r) true (ModuleRecord.added_at r) (now env) in
   res = Ret r' ∧ modules_table w' = <[name := r']> (modules_table w)).
Proof.
  intros Hr Hname. unfold_db. unfold_monad. intros H.
  destruct (db_faults w) as [|[err|] fs] eqn:E; simpl in H; rewrite ?Hr in H; simpl in H;
    rewrite ?E in H; simpl in H.
  - simplify_eq; simpl. by right.
  - simplify_eq; simpl. left. eauto.
  - destruct fs as [|[err|] fs']; simpl in H; simplify_eq; simpl.
    + by right.
    + left. eauto.
    + by right.
Qed.

(** A System row, or the lack of a row, makes [delete_module] answer [False]
    and leave the Registry alone, whatever the storage does. *)
Lemma delete_module_refused (name : string) (w w' : World) (res : Result bool) :
  (modules_table w !! name = None ∨
   ∃ r, modules_table w !! name = Some r ∧ ModuleRecord.is_system r = true) →
  delete_module name w = (res, w') →
  res = Ret false ∧ modules_table w' = modules_table w.
Proof.
  intros Hcase Hdel.
  destruct (delete_module_result name w)
    as (b & w3 & Heq & _ & _ & _ & _ & _ & _ & _ & _ & Hf & Ht).
  rewrite Heq in Hdel. simplify_eq. destruct b.
  - destruct (Ht eq_refl) as (r0 & Hr0 & Hs0 & _).
    destruct Hcase as [Hnone | (r & Hr & Hs)]; congruence.
  - by split; [|apply Hf].
Qed.

(** C10: the upsert never changes the origin class of an existing record:
    whatever [is_system] argument [add_module] receives and whether or not
    the storage faults, the row of an already registered name keeps its
    [is_system] flag (with its id, name and creation time), and on success
    only [file_path], [is_active] and [updated_at] are rewritten. Hence a
    System record stays protected: a [delete_module] that follows returns
    [False] and leaves the Registry as it is. *)
Theorem upsert_keeps_origin_class (env : Env) (name file_path : string)
    (is_system : bool) (w w' : World) (res : Result ModuleRecord.t) (r : ModuleRecord.t) :
  modules_table w !! name = Some r →
  ModuleRecord.name r = name →
  add_module env name file_path is_system w = (res, w') →
  ∃ r', modules_table w' !! name = Some r' ∧
    ModuleRecord.is_system r' = ModuleRecord.is_system r ∧
    ModuleRecord.id r' = ModuleRecord.id r ∧
    ModuleRecord.name r' = ModuleRecord.name r ∧
    ModuleRecord.added_at r' = ModuleRecord.added_at r ∧
    (∀ m, res = Ret m →
       m = r' ∧ ModuleRecord.file_path r' = file_path ∧
       ModuleRecord.is_active r' = true ∧ ModuleRecord.updated_at r' = now env) ∧
    (ModuleRecord.is_system r = true →
       ∀ res2 w2, delete_module name w' = (res2, w2) →
         res2 = Ret false ∧ modules_table w2 = modules_table w').
Proof.
  intros Hr Hname Hadd.
  destruct (add_module_existing env name file_path is_system w w' res r Hr Hname Hadd)
    as [(e & -> & Htab) | [-> Htab]].
  - exists r. split_and!; auto; try done.
    + by rewrite Htab.
    + intros Hsys res2 w2. apply delete_module_refused. right. exists r.
      by rewrite Htab.
  - eexists. split; [by rewrite Htab, lookup_insert_eq|]. simpl.
    split_and!; auto; try (intros; simplify_eq; done).
    intros Hsys res2 w2. apply delete_module_refused. right.
    eexists. split; [by rewrite Htab, lookup_insert_eq|done].
Qed.

(** ** Delete *)

Import manager.

(** The permission check never raises and writes nothing but a "not_admin"
    reply; the configured principal passes without a storage call, a listed
    administrator passes when the storage answers. *)
Lemma admin_required_result (env : Env) (message : Message) (w : World) :
  ∃ b w', admin_required env message w = (Ret b, w') ∧
    loaded_modules w' = loaded_modules w ∧ sys_modules w' = sys_modules w ∧
    modules_table w' = modules_table w ∧ modules_next_id w' = modules_next_id w ∧
    error_logs w' = error_logs w ∧ admins w' = admins w ∧ files w' = files w ∧
    calls w' = calls w ∧
    (b = true → outbox w' = outbox w) ∧
    (from_user_id message = admin_id env ∨
     (db_faults w = [] ∧ from_user_id message ∈ admins w) → b = true ∧ w' = w).
Proof.
  unfold admin_required, manager.is_admin, answer. unfold_db. unfold_monad.
  destruct (decide (from_user_id message = admin_id env)) as [Hid|Hid]; simpl.
  { eexists _, _. split; [reflexivity|]. split_and!; auto. }
  destruct (db_faults w) as [|[err|] fs] eqn:E; simpl;
    try (destruct (bool_decide (from_user_id message ∈ admins w)) eqn:Hin; simpl);
    eexists _, _; (split; [reflexivity|]); simpl; split_and!; auto; try done;
    try (intros [?|[? Hmem]];
         first [done | congruence | apply bool_decide_eq_false in Hin; done]).
Qed.





(** ** Overwrite proposal *)

(** C6: a /lm request whose target name already has a Catalog entry only asks
    for confirmation: Catalog, Registry and artifact storage (and
    [sys.modules], the Error Sink and the calls to foreign code) are left as
    they were, an authorised actor receives the question carrying the
    overwrite token, and cancelling afterwards still leaves Catalog, Registry
    and artifact storage identical to the state before the proposal. *)
Theorem overwrite_proposal_is_pure (env : Env) (message : Message) (document : Document)
    (w w1 : World) (r1 : Result unit) :
  reply_document message = Some document →
  endswith (file_name document) ".py" = true →
  is_Some (loaded_modules w !! drop_last3 (file_name document)) →
  load_module_handler env message w = (r1, w1) →
  (r1 = Ret tt ∧ loaded_modules w1 = loaded_modules w ∧
   modules_table w1 = modules_table w ∧ files w1 = files w ∧
   sys_modules w1 = sys_modules w ∧ error_logs w1 = error_logs w ∧ calls w1 = calls w) ∧
  (from_user_id message = admin_id env ∨
   (db_faults w = [] ∧ from_user_id message ∈ admins w) →
   outbox w1 = outbox w ++
     [{| reply_key := "module_conflict";
         reply_kwargs := [("name", drop_last3 (file_name document))];
         reply_keyboard := [("yes", "overwrite_lm_" +:+ drop_last3 (file_name document));
                            ("no", "cancel_load")] |}]) ∧
  (∀ callback r2 w2, cancel_load_callback callback w1 = (r2, w2) →
     r2 = Ret tt ∧ loaded_modules w2 = loaded_modules w ∧
     modules_table w2 = modules_table w ∧ files w2 = files w).
Proof.
  intros Hdoc Hpy Hloaded. unfold load_module_handler.
  unfold mbind at 1. unfold M_bind at 1.
  destruct (admin_required_result env message w) as (b & w0 & Heq & Hrest).
  destruct Hrest as (Hcat & Hsys & Htab & _ & Herr & _ & Hfiles & Hcalls & Hout & Hok).
  rewrite Heq, Hdoc, Hpy. unfold mret, M_ret. destruct b; simpl.
  - unfold try_except, mbind, M_bind, gets.
    destruct (decide (is_Some (loaded_modules w0 !! drop_last3 (file_name document))))
      as [_|Hn]; [|by rewrite Hcat in Hn].
    unfold answer, modify. intros H. simplify_eq. simpl. split_and!; auto.
    + intros Hauth. by destruct (Hok Hauth) as [_ ->].
    + unfold cancel_load_callback, answer, modify. intros _ r2 w2 H. by simplify_eq.
  - intros H. simplify_eq. split_and!; auto.
    + intros Hauth. by destruct (Hok Hauth).
    + unfold cancel_load_callback, answer, modify. intros _ r2 w2 H. by simplify_eq.
Qed.

(** ** Dependency provisioning *)

Lemma install_calls_app (env : Env) (l1 l2 : list string) :
  install_calls env (l1 ++ l2) = install_calls env l1 ++ install_calls env l2.
Proof. unfold install_calls. apply map_app. Qed.

Lemma install_calls_timeout (env : Env) (deps : list string) (c : RunCall) :
  CallRun c ∈ install_calls env deps → timeout c = 300%Z.
Proof.
  unfold install_calls. intros Hin. apply list_elem_of_fmap in Hin as (dep & Heq & _).
  by simplify_eq.
Qed.

(** The loop of the provisioner: it calls the installer on a prefix of the
    list, in list order, and stops at the first specifier whose installation
    does not complete with status 0. *)
Lemma install_each_spec (env : Env) (deps : list string) :
  ∀ (w w' : World) (r : Result bool),
  install_each env deps w = (r, w') →
  stores_unchanged w w' ∧
  ∃ attempted rest, deps = attempted ++ rest ∧
    calls w' = calls w ++ install_calls env attempted ∧
    match r with
    | Ret true => rest = [] ∧ installs_ok env (calls w) deps = true ∧ log w' = log w
    | Ret false =>
        ∃ pre dep p, attempted = pre ++ [dep] ∧ installs_ok env (calls w) pre = true ∧
          run env (calls w ++ install_calls env pre) (pip_install env dep) = Completed p ∧
          returncode p ≠ 0%Z ∧
          log w' = log w ++ [{| level := ERROR;
                                message := "Failed to install " +:+ dep +:+ ": " +:+ stderr p |}]
    | Raise e =>
        ∃ pre dep, attempted = pre ++ [dep] ∧ installs_ok env (calls w) pre = true ∧
          run env (calls w ++ install_calls env pre) (pip_install env dep) = RunRaises e ∧
          log w' = log w
    end.
Proof.
  induction deps as [|dep deps IH]; intros w w' r H; simpl in H.
  - unfold_monad. simplify_eq. split; [apply stores_unchanged_refl|].
    exists [], []. simpl. by rewrite app_nil_r.
  - unfold mbind, M_bind, subprocess_run in H.
    destruct (run env (calls w) (pip_install env dep)) as [p|e] eqn:Hrun.
    + destruct (returncode p =? 0)%Z eqn:Hcode; simpl in H.
      * apply IH in H as (Hst & attempted & rest & -> & Hcalls & Hr). simpl in *.
        split; [by destruct Hst as (?&?&?&?&?&?&?&?&?)|].
        exists (dep :: attempted), rest. split; [done|].
        split; [by rewrite Hcalls, <- app_assoc|].
        destruct r as [[|]|e].
        -- destruct Hr as (-> & Hok & Hlog). by rewrite Hrun, Hcode, Hok.
        -- destruct Hr as (pre & d & p' & -> & Hok & Hrun' & Hne & Hlog).
           exists (dep :: pre), d, p'. simpl. rewrite Hrun, Hcode, Hok.
           split_and!; auto. by rewrite <- app_assoc in Hrun'.
        -- destruct Hr as (pre & d & -> & Hok & Hrun' & Hlog).
           exists (dep :: pre), d. simpl. rewrite Hrun, Hcode, Hok.
           split_and!; auto. by rewrite <- app_assoc in Hrun'.
      * unfold_monad. simplify_eq. simpl. split; [by repeat split|].
        exists [dep], deps. split_and!; auto.
        exists [], dep, p. simpl. rewrite app_nil_r. split_and!; auto.
        by apply Z.eqb_neq.
    + simplify_eq. simpl. split; [by repeat split|].
      exists [dep], deps. split_and!; auto.
      exists [], dep. simpl. rewrite app_nil_r. by split_and!.
Qed.

Lemma installs_ok_app (env : Env) (l1 l2 : list string) :
  ∀ history, installs_ok env history (l1 ++ l2) =
    installs_ok env history l1 && installs_ok env (history ++ install_calls env l1) l2.
Proof.
  induction l1 as [|d l1 IH]; intros history; simpl.
  - by rewrite app_nil_r.
  - destruct (run env history (pip_install env d)) as [p|e]; [|done].
    rewrite IH, <- app_assoc. simpl. by rewrite andb_assoc.
Qed.

(** [_install_dependencies] as a whole: the loop, its two information lines
    and the [except] clause, which turns an [Exception] raised by
    [subprocess.run] (a timeout among them) into [False]. *)
Lemma install_dependencies_spec (env : Env) (deps : list string) (module_name : string)
    (w w' : World) (r : Result bool) :
  _install_dependencies env deps module_name w = (r, w') →
  stores_unchanged w w' ∧
  ∃ attempted rest, deps = attempted ++ rest ∧
    calls w' = calls w ++ install_calls env attempted ∧
    match r with
    | Ret true => rest = [] ∧ installs_ok env (calls w) deps = true
    | Ret false =>
        ∃ pre dep, attempted = pre ++ [dep] ∧ installs_ok env (calls w) pre = true ∧
          match run env (calls w ++ install_calls env pre) (pip_install env dep) with
          | Completed p =>
              returncode p ≠ 0%Z ∧
              last (log w') =
                Some {| level := ERROR;
                        message := "Failed to install " +:+ dep +:+ ": " +:+ stderr p |}
          | RunRaises e =>
              exc_is_Exception e = true ∧
              last (log w') =
                Some {| level := ERROR;
                        message := "Error installing dependencies for " +:+ module_name
                                   +:+ ": " +:+ exc_msg e |}
          end
    | Raise e =>
        exc_is_Exception e = false ∧
        ∃ pre dep, attempted = pre ++ [dep] ∧ installs_ok env (calls w) pre = true ∧
          run env (calls w ++ install_calls env pre) (pip_install env dep) = RunRaises e
    end.
Proof.
  unfold _install_dependencies, try_except, logger_info, logger_error, modify.
  unfold mbind, M_bind, mret, M_ret. intros H.
  match type of H with context [install_each env deps ?w0] =>
    destruct (install_each env deps w0) as [ri wi] eqn:Hloop end.
  apply install_each_spec in Hloop as (Hst & attempted & rest & Hdeps & Hcalls & Hr).
  simpl in Hcalls.
  assert (stores_unchanged w wi) as Hst'.
  { destruct Hst as (?&?&?&?&?&?&?&?&?). by repeat split. }
  destruct ri as [[|]|e]; simpl in *.
  - simplify_eq. split; [by destruct Hst' as (?&?&?&?&?&?&?&?&?)|].
    exists attempted, rest. split_and!; auto; by destruct Hr as (?&?&?).
  - simplify_eq. split; [done|]. exists attempted, rest. split_and!; auto.
    destruct Hr as (pre & dep & p & -> & Hok & Hrun & Hne & Hlog).
    exists pre, dep. split_and!; auto. rewrite Hrun. split; [done|].
    by rewrite Hlog, last_snoc.
  - destruct Hr as (pre & dep & Hatt & Hok & Hrun & Hlog).
    destruct (exc_is_Exception e) eqn:Hexc; simplify_eq; simpl.
    + split; [by destruct Hst' as (?&?&?&?&?&?&?&?&?)|].
      exists (pre ++ [dep]), rest. split_and!; auto.
      exists pre, dep. split_and!; auto. rewrite Hrun. split; [done|].
      by rewrite last_snoc.
    + split; [done|]. exists (pre ++ [dep]), rest. split_and!; auto.
      by exists pre, dep.
Qed.

(** C7, as stated, fails: the result of [_install_dependencies] is a bare
    boolean, so no reading of the result can tell which specifier failed or
    what the installer printed. Two failing installs, of "alpha" and of
    "beta", return the same [False]. *)
Lemma install_result_names_no_specifier :
  ¬ ∃ report : Result bool → string * string,
      report (fst (_install_dependencies env_no_index ["alpha"] "m" world0)) =
        ("alpha", "No matching distribution found for alpha") ∧
      report (fst (_install_dependencies env_no_index ["beta"] "m" world0)) =
        ("beta", "No matching distribution found for beta").
Proof.
  intros (report & Ha & Hb). vm_compute in Ha, Hb. rewrite Ha in Hb. discriminate.
Qed.

(** C7, amended: the specifiers are installed strictly in list order, every
    installer invocation carries the timeout 300, installation stops at the
    first specifier whose installation fails (the calls made are exactly the
    installs of a prefix of the list, so no later specifier is attempted and
    nothing is rolled back), and the call returns only a boolean; when the
    installer exits with a non-zero status, the failing specifier and the
    installer's diagnostic output are written to the process log. *)
Theorem install_in_order_until_failure (env : Env) (deps : list string)
    (module_name : string) (w w' : World) (r : Result bool) :
  _install_dependencies env deps module_name w = (r, w') →
  ∃ attempted rest, deps = attempted ++ rest ∧
    calls w' = calls w ++ install_calls env attempted ∧
    (∀ c, CallRun c ∈ install_calls env attempted → timeout c = 300%Z) ∧
    (r = Ret true → rest = [] ∧ installs_ok env (calls w) deps = true) ∧
    (r ≠ Ret true →
       ∃ pre dep, attempted = pre ++ [dep] ∧
         installs_ok env (calls w) pre = true ∧
         installs_ok env (calls w) (pre ++ [dep]) = false ∧
         ∀ p, run env (calls w ++ install_calls env pre) (pip_install env dep) = Completed p →
           r = Ret false ∧
           last (log w') =
             Some {| level := ERROR;
                     message := "Failed to install " +:+ dep +:+ ": " +:+ stderr p |}).
Proof.
  intros H. apply install_dependencies_spec in H as (_ & attempted & rest & Hdeps & Hcalls & Hr).
  exists attempted, rest. split_and!; auto.
  - intros c. apply install_calls_timeout.
  - intros ->. done.
  - intros Hne. destruct r as [[|]|e]; [done| |].
    + destruct Hr as (pre & dep & -> & Hok & Hrun). exists pre, dep. split_and!; auto.
      * rewrite installs_ok_app, Hok. simpl.
        destruct (run env _ _) as [p|e]; [|done].
        destruct Hrun as [Hcode _]. apply Z.eqb_neq in Hcode. by rewrite Hcode.
      * intros p Hp. rewrite Hp in Hrun. by destruct Hrun.
    + destruct Hr as (Hexc & pre & dep & -> & Hok & Hrun). exists pre, dep. split_and!; auto.
      * rewrite installs_ok_app, Hok. simpl. by rewrite Hrun.
      * intros p Hp. congruence.
Qed.

Lemma install_in_order_until_failure_witness :
  ∃ attempted rest, ["alpha"; "beta"; "gamma"] = attempted ++ rest ∧
    calls (snd (_install_dependencies env_no_beta ["alpha"; "beta"; "gamma"] "m" world0)) =
      calls world0 ++ install_calls env_no_beta attempted ∧
    (∀ c, CallRun c ∈ install_calls env_no_beta attempted → timeout c = 300%Z) ∧
    (fst (_install_dependencies env_no_beta ["alpha"; "beta"; "gamma"] "m" world0) = Ret true →
       rest = [] ∧
       installs_ok env_no_beta (calls world0) ["alpha"; "beta"; "gamma"] = true) ∧
    (fst (_install_dependencies env_no_beta ["alpha"; "beta"; "gamma"] "m" world0) ≠ Ret true →
       ∃ pre dep, attempted = pre ++ [dep] ∧
         installs_ok env_no_beta (calls world0) pre = true ∧
         installs_ok env_no_beta (calls world0) (pre ++ [dep]) = false ∧
         ∀ p, run env_no_beta (calls world0 ++ install_calls env_no_beta pre)
                (pip_install env_no_beta dep) = Completed p →
           fst (_install_dependencies env_no_beta ["alpha"; "beta"; "gamma"] "m" world0)
             = Ret false ∧
           last (log (snd (_install_dependencies env_no_beta ["alpha"; "beta"; "gamma"]
                             "m" world0))) =
             Some {| level := ERROR;
                     message := "Failed to install " +:+ dep +:+ ": " +:+ stderr p |}).
Proof.
  apply (install_in_order_until_failure env_no_beta ["alpha"; "beta"; "gamma"] "m" world0).
  vm_compute. reflexivity.
Defined.

Example install_stops_at_beta :
  calls (snd (_install_dependencies env_no_beta ["alpha"; "beta"; "gamma"] "m" world0)) =
    install_calls env_no_beta ["alpha"; "beta"] ∧
  fst (_install_dependencies env_no_beta ["alpha"; "beta"; "gamma"] "m" world0) = Ret false.
Proof. vm_compute. done. Qed.

(** ** Load *)

(** [log_error] never raises: a fault of the sink write is swallowed and the
    row is then missing. *)
Lemma log_error_result (env : Env) (error_type error_message : string)
    (module_name traceback : option string) (w : World) :
  ∃ w', log_error env error_type error_message module_name traceback w = (Ret tt, w') ∧
    loaded_modules w' = loaded_modules w ∧ sys_modules w' = sys_modules w ∧
    modules_table w' = modules_table w ∧ modules_next_id w' = modules_next_id w ∧
    admins w' = admins w ∧ files w' = files w ∧ calls w' = calls w ∧
    outbox w' = outbox w ∧
    (∃ tail, log w' = log w ++ tail) ∧
    match db_faults w with
    | Some _ :: _ => error_logs w' = error_logs w
    | _ => error_logs w' = error_logs w ++
             [ErrorLog.mk (S (length (error_logs w))) module_name error_type error_message
                traceback (now env)]
    end.
Proof.
  unfold_db. unfold_monad.
  destruct (db_faults w) as [|[err|] fs] eqn:E; simpl;
    eexists; (split; [reflexivity|]); simpl; split_and!; auto;
    first [by exists [] ; rewrite app_nil_r | by eexists].
Qed.

(** The [except] block answers [False], never raises, and leaves Catalog,
    Registry, storage and calls as it finds them. *)
Lemma load_module_except_result (env : Env) (module_name : string) (e : PyExc) (w : World) :
  ∃ w', load_module_except env module_name e w = (Ret false, w') ∧
    loaded_modules w' = loaded_modules w ∧ sys_modules w' = sys_modules w ∧
    modules_table w' = modules_table w ∧ modules_next_id w' = modules_next_id w ∧
    admins w' = admins w ∧ files w' = files w ∧ calls w' = calls w ∧
    outbox w' = outbox w ∧
    {| level := ERROR;
       message := "Error loading module " +:+ module_name +:+ ": " +:+ exc_msg e |} ∈ log w' ∧
    match db_faults w with
    | Some _ :: _ => error_logs w' = error_logs w
    | _ => error_logs w' = error_logs w ++ [sink_row env w module_name e]
    end.
Proof.
  unfold load_module_except. unfold mbind, M_bind, logger_error, modify.
  match goal with |- context [log_error env ?a ?b ?c ?d ?w0] =>
    destruct (log_error_result env a b c d w0) as (w1 & Heq & H) end.
  rewrite Heq. unfold mret, M_ret. eexists. split; [reflexivity|].
  destruct H as (?&?&?&?&?&?&?&?&(tail & Hlog)&Hsink). simpl in *. split_and!; auto.
  rewrite Hlog, !elem_of_app, list_elem_of_singleton. auto.
Qed.

Lemma check_dependencies_spec (env : Env) (a : Artifact) (module_name : string)
    (w w' : World) (r : Result bool) :
  check_dependencies env a module_name w = (r, w') →
  stores_unchanged w w' ∧
  match DEPENDENCIES a with
  | Some (dep :: rest) => _install_dependencies env (dep :: rest) module_name w = (r, w')
  | _ => r = Ret true ∧ w' = w
  end.
Proof.
  unfold check_dependencies. destruct (DEPENDENCIES a) as [[|dep rest]|]; intros H.
  - unfold mret, M_ret in H. simplify_eq. split; [apply stores_unchanged_refl|done].
  - split; [|done]. by apply install_dependencies_spec in H as [? _].
  - unfold mret, M_ret in H. simplify_eq. split; [apply stores_unchanged_refl|done].
Qed.

(** The [try] block either stops before the Catalog insert, leaving Catalog
    and Registry alone, or reaches the insert and the registry write, which
    then succeeds or faults with the Catalog entry already in place. The
    block never writes to the Error Sink. *)
Lemma load_module_try_cases (env : Env) (file_path module_name : string)
    (is_system : bool) (w w1 : World) (r : Result bool) :
  load_module_try env file_path module_name is_system w = (r, w1) →
  error_logs w1 = error_logs w ∧ files w1 = files w ∧ admins w1 = admins w ∧
  outbox w1 = outbox w ∧
  ((r ≠ Ret true ∧ loaded_modules w1 = loaded_modules w ∧
    modules_table w1 = modules_table w ∧ modules_next_id w1 = modules_next_id w ∧
    db_faults w1 = db_faults w)
   ∨
   (∃ a mi, files w !! file_path = Some a ∧ has_file_loader env file_path = true ∧
      exec_raises a = None ∧ has_register a = true ∧
      register_result a = RegisterReturns (VModuleInfo mi) ∧
      loaded_modules w1 =
        <[module_name := ModuleInfo.set_is_system is_system mi]> (loaded_modules w) ∧
      (r = Ret true ∨
       (∃ err, r = Raise (storage_exc err) ∧ Some err ∈ db_faults w ∧
          modules_table w1 = modules_table w ∧
          modules_next_id w1 = modules_next_id w)))).
Proof.
  unfold load_module_try. unfold mbind at 1. unfold M_bind at 1. unfold gets at 1.
  destruct (files w !! file_path) as [a|] eqn:Hfile.
  2:{ unfold_monad. intros H. simplify_eq. simpl. split_and!; auto. left. by split_and!. }
  destruct (has_file_loader env file_path) eqn:Hloader; simpl.
  2:{ unfold_monad. intros H. simplify_eq. simpl. split_and!; auto. left. by split_and!. }
  unfold exec_module.
  destruct (exec_raises a) as [e|] eqn:Hexec.
  { unfold_monad. intros H. simplify_eq. simpl. split_and!; auto. left. by split_and!. }
  destruct (has_register a) eqn:Hreg; simpl.
  2:{ unfold_monad. intros H. simplify_eq. simpl. split_and!; auto. left. by split_and!. }
  unfold mbind, M_bind, modify, mret, M_ret. fold (after_exec module_name w).
  destruct (check_dependencies env a module_name (after_exec module_name w))
    as [rd wd] eqn:Hdeps.
  apply check_dependencies_spec in Hdeps as [Hst _].
  destruct Hst as (Hd1 & Hd2 & Hd3 & Hd4 & Hd5 & Hd6 & Hd7 & Hd8 & Hd9). simpl in *.
  destruct rd as [[|]|e]; simpl.
  2:{ intros H. simplify_eq. split_and!; auto. left. by split_and!. }
  2:{ intros H. simplify_eq. split_and!; auto. left. by split_and!. }
  unfold register_module, call_register, mbind, M_bind, modify, raise, mret, M_ret.
  destruct (register_result a) as [e|[mi|]] eqn:Hres.
  { intros H. simplify_eq. simpl. split_and!; auto. left. by split_and!. }
  2:{ unfold logger_error, modify. intros H. simplify_eq. simpl. split_and!; auto.
      left. by split_and!. }
  match goal with |- context [add_module env ?n ?p ?s ?w0] =>
    destruct (add_module env n p s w0) as [ra wa] eqn:Hadd end.
  apply add_module_frame in Hadd as (Ha1 & Ha2 & Ha3 & Ha4 & Ha5 & Ha6 & Ha7 & Hraise & _).
  simpl in *. destruct ra as [m|e]; unfold logger_info, modify; intros H; simplify_eq; simpl.
  - split_and!; try congruence. right. exists a, mi. split_and!; auto. congruence.
  - split_and!; try congruence. right. exists a, mi. split_and!; auto; [congruence|].
    right. destruct (Hraise e eq_refl) as (_ & Ht & Hn & err & rest & Hf & ->).
    exists err. split_and!; auto; try congruence.
    rewrite <- Hd9, Hf. rewrite elem_of_app, elem_of_cons. auto.
Qed.

(** [load_module] in terms of its two blocks. *)
Lemma load_module_outcome (env : Env) (file_path module_name : string)
    (is_system : bool) (w w' : World) (r : Result bool) :
  load_module env file_path module_name is_system w = (r, w') →
  (load_module_try env file_path module_name is_system w = (r, w') ∧
   (∀ e, r = Raise e → exc_is_Exception e = false)) ∨
  (∃ e w1, load_module_try env file_path module_name is_system w = (Raise e, w1) ∧
     exc_is_Exception e = true ∧ r = Ret false ∧
     load_module_except env module_name e w1 = (Ret false, w')).
Proof.
  unfold load_module, try_except.
  destruct (load_module_try env file_path module_name is_system w) as [rb w1] eqn:Hbody.
  destruct rb as [b|e].
  - intros H. simplify_eq. left. split; [done|]. intros e He. discriminate.
  - destruct (exc_is_Exception e) eqn:Hexc.
    + intros H. right. exists e, w1.
      destruct (load_module_except_result env module_name e w1) as (w2 & Heq & _).
      rewrite Heq in H. simplify_eq. by split_and!.
    + intros H. simplify_eq. left. split; [done|]. intros e' He'. by simplify_eq.
Qed.






(** C3, as stated, fails: a load of a missing artifact is reported to the
    caller but writes no record to the Error Sink; the same holds for a file
    without entrypoint and for a failed provisioning. *)
Lemma early_failures_skip_the_error_sink :
  (fst (load_module env0 "modules/user/nope.py" "nope" false world0) = Ret false ∧
   error_logs (snd (load_module env0 "modules/user/nope.py" "nope" false world0)) = []) ∧
  (fst (load_module env0 foo_path "foo" false
          (set_files (insert foo_path no_register_artifact) world0)) = Ret false ∧
   error_logs (snd (load_module env0 foo_path "foo" false
          (set_files (insert foo_path no_register_artifact) world0))) = []) ∧
  (fst (load_module env_no_beta foo_path "foo" false
          (set_files (insert foo_path beta_artifact) world0)) = Ret false ∧
   error_logs (snd (load_module env_no_beta foo_path "foo" false
          (set_files (insert foo_path beta_artifact) world0))) = []).
Proof. vm_compute. done. Qed.

(** C3, amended: every load failure that returns is reported to the caller
    as [False]. A failure found by one of the loader's own checks (artifact
    missing, no loader for the path, entrypoint missing, provisioning failed,
    descriptor that is not a [ModuleInfo]) ends the [try] block with [False]
    and leaves the Error Sink untouched; it is written to the process log
    only. A failure that surfaces as a caught fault is the one kind that
    appends a row to the Error Sink, provided the sink write does not fault. *)
Theorem load_failure_reporting (env : Env) (file_path module_name : string)
    (is_system : bool) (w w' : World) (r : Result bool) :
  load_module env file_path module_name is_system w = (r, w') →
  (r = Ret false →
     (load_module_try env file_path module_name is_system w = (Ret false, w') ∧
      error_logs w' = error_logs w) ∨
     (∃ e w1, load_module_try env file_path module_name is_system w = (Raise e, w1) ∧
        exc_is_Exception e = true ∧
        match db_faults w1 with
        | Some _ :: _ => error_logs w' = error_logs w
        | _ => error_logs w' = error_logs w ++ [sink_row env w module_name e]
        end)) ∧
  (files w !! file_path = None →
     r = Ret false ∧ error_logs w' = error_logs w ∧
     log w' = log w ++ [{| level := ERROR;
                           message := "Module file not found: " +:+ file_path |}]) ∧
  (∀ a, files w !! file_path = Some a → has_file_loader env file_path = true →
     exec_raises a = None →
     (has_register a = false →
        r = Ret false ∧ error_logs w' = error_logs w ∧
        log w' = log w ++ [{| level := ERROR;
                              message := "Module " +:+ module_name
                                         +:+ " has no 'register' function" |}]) ∧
     (has_register a = true →
        (∀ wd, check_dependencies env a module_name (after_exec module_name w)
                 = (Ret false, wd) →
           r = Ret false ∧ w' = wd ∧ error_logs w' = error_logs w) ∧
        (∀ wd, check_dependencies env a module_name (after_exec module_name w)
                 = (Ret true, wd) →
           register_result a = RegisterReturns VOther →
           r = Ret false ∧ error_logs w' = error_logs w ∧
           last (log w') = Some {| level := ERROR;
                                   message := "Module " +:+ module_name
                                              +:+ " returned invalid ModuleInfo" |}))).
Proof.
  intros Hload. split_and!.
  - intros ->.
    destruct (load_module_outcome _ _ _ _ _ _ _ Hload)
      as [[Hbody _] | (e & w1 & Hbody & Hexc & _ & Hexcept)].
    + left. split; [done|]. by apply load_module_try_cases in Hbody as (? & _).
    + right. exists e, w1. split_and!; auto.
      destruct (load_module_except_result env module_name e w1)
        as (w2 & Heq & _ & _ & _ & _ & _ & _ & _ & _ & _ & Hsink).
      rewrite Heq in Hexcept. simplify_eq.
      apply load_module_try_cases in Hbody as (Herr & _).
      unfold sink_row in *. rewrite Herr in Hsink. by destruct (db_faults w1) as [|[?|] ?].
  - intros Hfile. unfold load_module, load_module_try in Hload. unfold_monad.
    rewrite Hfile in Hload. simpl in Hload. by simplify_eq.
  - intros a Hfile Hloader Hexec. split.
    + intros Hreg. unfold load_module, load_module_try, exec_module in Hload. unfold_monad.
      rewrite Hfile, Hloader, Hexec, Hreg in Hload. simpl in Hload. by simplify_eq.
    + intros Hreg. split.
      * intros wd Hdeps. unfold load_module, load_module_try, exec_module in Hload.
        unfold try_except, mbind, M_bind, gets, modify, mret, M_ret in Hload.
        rewrite Hfile, Hloader, Hexec, Hreg in Hload. simpl in Hload.
        fold (after_exec module_name w) in Hload. rewrite Hdeps in Hload. simpl in Hload.
        simplify_eq. split_and!; auto.
        by apply check_dependencies_spec in Hdeps as [(?&?&?&?&?&?) _].
      * intros wd Hdeps Hres.
        unfold load_module, load_module_try, exec_module in Hload.
        unfold register_module, call_register, logger_error in Hload.
        unfold try_except, mbind, M_bind, gets, modify, mret, M_ret in Hload.
        rewrite Hfile, Hloader, Hexec, Hreg in Hload. simpl in Hload.
        fold (after_exec module_name w) in Hload. rewrite Hdeps, Hres in Hload.
        simpl in Hload. simplify_eq. simpl. split_and!; auto.
        -- by apply check_dependencies_spec in Hdeps as [(?&?&?&?&?&?) _].
        -- by rewrite last_snoc.
Qed.

(** ** Reload *)

Lemma reload_module_found (env : Env) (module_name : string) (w w0 : World)
    (rec : ModuleRecord.t) :
  get_module module_name w = (Ret (Some rec), w0) →
  reload_module env module_name w =
    load_module env (ModuleRecord.file_path rec) module_name (ModuleRecord.is_system rec)
      (snd (unload_module module_name w0)).
Proof.
  intros Hget. unfold reload_module, try_except, mbind, M_bind. rewrite Hget.
  destruct (unload_module_result w0 module_name) as (b & w2 & Hu & _). rewrite Hu. simpl.
  destruct (load_module env (ModuleRecord.file_path rec) module_name
              (ModuleRecord.is_system rec) w2) as [r w'] eqn:Hload.
  destruct r as [b'|e]; [done|].
  destruct (load_module_outcome _ _ _ _ _ _ _ Hload) as [[_ H] | (e' & w1 & _ & _ & ? & _)];
    [by rewrite (H e eq_refl) | done].
Qed.




(** ** Provisioning inside a load *)

Lemma register_module_calls (env : Env) (file_path module_name : string)
    (is_system : bool) (a : Artifact) (wd w1 : World) (rb : Result bool) :
  register_module env file_path module_name is_system a wd = (rb, w1) →
  calls w1 = calls wd ++ [CallRegister module_name].
Proof.
  unfold register_module, call_register. unfold_monad.
  destruct (register_result a) as [e|[mi|]]; simpl; try (intros; by simplify_eq).
  match goal with |- context [add_module env ?n ?p ?s ?w0] =>
    destruct (add_module env n p s w0) as [ra wa] eqn:Hadd end.
  apply add_module_frame in Hadd as (_ & _ & _ & _ & _ & Hc & _). simpl in Hc.
  destruct ra; intros; by simplify_eq.
Qed.

(** For a file that executes and has an entrypoint, the [try] block is the
    dependency block followed, on success, by the registration block. *)
Lemma load_module_try_provisioning (env : Env) (file_path module_name : string)
    (is_system : bool) (w : World) (a : Artifact) :
  files w !! file_path = Some a →
  has_file_loader env file_path = true →
  exec_raises a = None →
  has_register a = true →
  load_module_try env file_path module_name is_system w =
    match check_dependencies env a module_name (after_exec module_name w) with
    | (Ret true, wd) => register_module env file_path module_name is_system a wd
    | (Ret false, wd) => (Ret false, wd)
    | (Raise e, wd) => (Raise e, wd)
    end.
Proof.
  intros Hfile Hloader Hexec Hreg. unfold load_module_try, exec_module.
  unfold mbind, M_bind, gets, modify, mret, M_ret.
  rewrite Hfile, Hloader, Hexec, Hreg. simpl. fold (after_exec module_name w).
  destruct (check_dependencies env a module_name (after_exec module_name w)) as [[[|]|e] wd];
    done.
Qed.

(** What [load_module] keeps of the outcome of its [try] block. *)
Lemma load_module_after_try (env : Env) (file_path module_name : string)
    (is_system : bool) (w w1 w' : World) (rb r : Result bool) :
  load_module_try env file_path module_name is_system w = (rb, w1) →
  load_module env file_path module_name is_system w = (r, w') →
  calls w' = calls w1 ∧ loaded_modules w' = loaded_modules w1 ∧
  modules_table w' = modules_table w1 ∧
  (rb ≠ Ret true → r ≠ Ret true) ∧
  (∀ b, rb = Ret b → r = rb ∧ w' = w1) ∧
  (∀ e, rb = Raise e → exc_is_Exception e = false → r = rb ∧ w' = w1).
Proof.
  intros Hbody Hload. unfold load_module, try_except in Hload. rewrite Hbody in Hload.
  destruct rb as [b|e]; [simplify_eq; by split_and!|].
  destruct (exc_is_Exception e) eqn:Hexc; [|simplify_eq; by split_and!].
  destruct (load_module_except_result env module_name e w1)
    as (w2 & Heq & ? & ? & ? & ? & ? & ? & ? & _).
  rewrite Heq in Hload. simplify_eq.
  split_and!; try done; intros; simplify_eq; congruence.
Qed.

(** C8, as stated, fails: the loader never looks at the dependencies of the
    descriptor. A module whose descriptor declares ["requests"] but whose
    file has no module-level [DEPENDENCIES] is loaded without a single call
    to the installer. *)
Lemma declared_dependencies_are_not_provisioned :
  fst (load_module env0 foo_path "foo" false
         (set_files (insert foo_path declared_only_artifact) world0)) = Ret true ∧
  (ModuleInfo.dependencies <$>
     loaded_modules (snd (load_module env0 foo_path "foo" false
         (set_files (insert foo_path declared_only_artifact) world0))) !! "foo")
    = Some ["requests"] ∧
  calls (snd (load_module env0 foo_path "foo" false
         (set_files (insert foo_path declared_only_artifact) world0)))
    = [CallExec "foo"; CallRegister "foo"].
Proof. vm_compute. done. Qed.

(** C8, amended: for a file that executes and has an entrypoint, the
    Provisioner is invoked exactly when the module-level [DEPENDENCIES]
    attribute of the file is a non-empty list; every installer call then
    precedes the call of the registration entrypoint, hence the Catalog
    insert and the Registry upsert; and when the installation does not
    succeed the entrypoint is never called, the load does not succeed, and
    Catalog, Registry and Error Sink are left as they were. *)
Theorem provisioning_follows_module_attribute (env : Env) (file_path module_name : string)
    (is_system : bool) (w w' : World) (r : Result bool) (a : Artifact) :
  files w !! file_path = Some a →
  has_file_loader env file_path = true →
  exec_raises a = None →
  has_register a = true →
  load_module env file_path module_name is_system w = (r, w') →
  match DEPENDENCIES a with
  | Some (dep :: rest) =>
      ∃ attempted unattempted tail,
        attempted ≠ [] ∧ dep :: rest = attempted ++ unattempted ∧
        calls w' = calls w ++ [CallExec module_name] ++ install_calls env attempted ++ tail ∧
        (tail = [] ∨ tail = [CallRegister module_name]) ∧
        (installs_ok env (calls w ++ [CallExec module_name]) (dep :: rest) = false →
           tail = [] ∧ r ≠ Ret true ∧
           loaded_modules w' = loaded_modules w ∧ modules_table w' = modules_table w ∧
           error_logs w' = error_logs w)
  | _ => calls w' = calls w ++ [CallExec module_name; CallRegister module_name]
  end.
Proof.
  intros Hfile Hloader Hexec Hreg Hload.
  destruct (load_module_try env file_path module_name is_system w) as [rb w1] eqn:Hbody.
  destruct (load_module_after_try _ _ _ _ _ _ _ _ _ Hbody Hload)
    as (-> & -> & -> & Hrr & Hret & Hesc).
  rewrite (load_module_try_provisioning env _ _ _ _ a) in Hbody by done.
  destruct (check_dependencies env a module_name (after_exec module_name w))
    as [rd wd] eqn:Hdeps.
  apply check_dependencies_spec in Hdeps as [Hst Hdeps].
  destruct (DEPENDENCIES a) as [[|dep rest]|] eqn:HD.
  - destruct Hdeps as [-> ->]. apply register_module_calls in Hbody.
    rewrite Hbody. simpl. by rewrite <- app_assoc.
  - apply install_dependencies_spec in Hdeps
      as (_ & attempted & unattempted & Hsplit & Hcalls & Hr).
    simpl in Hcalls. destruct Hst as (Hs1 & _ & Hs3 & _ & Hs5 & _). simpl in *.
    destruct rd as [[|]|e].
    + apply register_module_calls in Hbody. destruct Hr as [-> Hok].
      exists attempted, [], [CallRegister module_name].
      rewrite app_nil_r in Hsplit. subst attempted. split_and!; auto.
      * by rewrite app_nil_r.
      * rewrite Hbody, Hcalls. by rewrite <- !app_assoc.
      * simpl in Hok. simpl. intros Hno. rewrite Hok in Hno. discriminate.
    + simplify_eq. destruct Hr as (pre & d & -> & _).
      exists (pre ++ [d]), unattempted, []. split_and!; auto.
      * by destruct pre.
      * rewrite Hcalls, app_nil_r. by rewrite <- !app_assoc.
      * intros _. destruct (Hret false eq_refl) as [-> ->]. by split_and!.
    + simplify_eq. destruct Hr as (Hexc & pre & d & -> & _).
      exists (pre ++ [d]), unattempted, []. split_and!; auto.
      * by destruct pre.
      * rewrite Hcalls, app_nil_r. by rewrite <- !app_assoc.
      * intros _. destruct (Hesc e eq_refl Hexc) as [-> ->]. by split_and!.
  - destruct Hdeps as [-> ->]. apply register_module_calls in Hbody.
    rewrite Hbody. simpl. by rewrite <- app_assoc.
Qed.

(* ===================================================================== *)
(** * The theorems at concrete inputs *)

Lemma unload_absent_is_noop_witness :
  loaded_modules world0 !! "foo" = None ∧
  unload_module "foo" world0 = (Ret false, world0) ∧
  unload_module "foo" (snd (unload_module "foo" world_foo_user)) =
    (Ret false, snd (unload_module "foo" world_foo_user)).
Proof.
  split; [reflexivity|]. split.
  - apply (proj1 (unload_absent_is_noop world0 "foo")). reflexivity.
  - apply (proj2 (unload_absent_is_noop world_foo_user "foo")
             (fst (unload_module "foo" world_foo_user))).
    vm_compute. reflexivity.
Defined.

Lemma upsert_keeps_origin_class_witness :
  modules_table world_manager !! "manager" = Some manager_record ∧
  ∃ r', modules_table (snd (add_module env0 "manager" "modules/user/manager.py" false
                              world_manager)) !! "manager" = Some r' ∧
    ModuleRecord.is_system r' = true.
Proof.
  split; [vm_compute; reflexivity|].
  destruct (upsert_keeps_origin_class env0 "manager" "modules/user/manager.py" false
              world_manager
              (snd (add_module env0 "manager" "modules/user/manager.py" false world_manager))
              (fst (add_module env0 "manager" "modules/user/manager.py" false world_manager))
              manager_record)
    as (r' & Hr' & Hsys & _); [vm_compute; reflexivity..|].
  exists r'. split; [exact Hr' | exact Hsys].
Defined.


Lemma overwrite_proposal_is_pure_witness :
  is_Some (loaded_modules world_foo_user !! "foo") ∧
  loaded_modules (snd (load_module_handler env0 lm_foo_message world_foo_user)) =
    loaded_modules world_foo_user ∧
  modules_table (snd (load_module_handler env0 lm_foo_message world_foo_user)) =
    modules_table world_foo_user ∧
  files (snd (load_module_handler env0 lm_foo_message world_foo_user)) =
    files world_foo_user.
Proof.
  assert (is_Some (loaded_modules world_foo_user !! "foo")) as Hlive
    by (exists old_foo_info; vm_compute; reflexivity).
  split; [exact Hlive|].
  destruct (overwrite_proposal_is_pure env0 lm_foo_message
              {| file_name := "foo.py"; file_id := "file-1" |} world_foo_user
              (snd (load_module_handler env0 lm_foo_message world_foo_user))
              (fst (load_module_handler env0 lm_foo_message world_foo_user)))
    as ((_ & Hc & Ht & Hf & _) & _);
    [reflexivity | vm_compute; reflexivity | exact Hlive | vm_compute; reflexivity |].
  split; [exact Hc|]. split; [exact Ht | exact Hf].
Defined.



Lemma load_failure_reporting_witness :
  load_module env0 "modules/user/nope.py" "nope" false world0 =
    (Ret false, snd (load_module env0 "modules/user/nope.py" "nope" false world0)) ∧
  error_logs (snd (load_module env0 "modules/user/nope.py" "nope" false world0)) =
    error_logs world0.
Proof.
  split; [vm_compute; reflexivity|].
  apply (proj1 (proj2 (load_failure_reporting env0 "modules/user/nope.py" "nope" false world0
           (snd (load_module env0 "modules/user/nope.py" "nope" false world0)) (Ret false)
           ltac:(vm_compute; reflexivity)))).
  vm_compute. reflexivity.
Defined.


Lemma provisioning_follows_module_attribute_witness :
  files (set_files (insert foo_path beta_artifact) world0) !! foo_path = Some beta_artifact ∧
  ∃ attempted unattempted tail,
    attempted ≠ [] ∧ ["beta"] = attempted ++ unattempted ∧
    calls (snd (load_module env_no_beta foo_path "foo" false
                  (set_files (insert foo_path beta_artifact) world0))) =
      calls (set_files (insert foo_path beta_artifact) world0) ++
        [CallExec "foo"] ++ install_calls env_no_beta attempted ++ tail ∧
    (tail = [] ∨ tail = [CallRegister "foo"]) ∧
    (installs_ok env_no_beta
       (calls (set_files (insert foo_path beta_artifact) world0) ++ [CallExec "foo"])
       ["beta"] = false →
     tail = [] ∧
     fst (load_module env_no_beta foo_path "foo" false
            (set_files (insert foo_path beta_artifact) world0)) ≠ Ret true ∧
     loaded_modules (snd (load_module env_no_beta foo_path "foo" false
                            (set_files (insert foo_path beta_artifact) world0))) =
       loaded_modules (set_files (insert foo_path beta_artifact) world0) ∧
     modules_table (snd (load_module env_no_beta foo_path "foo" false
                            (set_files (insert foo_path beta_artifact) world0))) =
       modules_table (set_files (insert foo_path beta_artifact) world0) ∧
     error_logs (snd (load_module env_no_beta foo_path "foo" false
                            (set_files (insert foo_path beta_artifact) world0))) =
       error_logs (set_files (insert foo_path beta_artifact) world0)).
Proof.
  split; [vm_compute; reflexivity|].
  apply (provisioning_follows_module_attribute env_no_beta foo_path "foo" false
           (set_files (insert foo_path beta_artifact) world0)
           (snd (load_module env_no_beta foo_path "foo" false
                   (set_files (insert foo_path beta_artifact) world0)))
           (fst (load_module env_no_beta foo_path "foo" false
                   (set_files (insert foo_path beta_artifact) world0)))
           beta_artifact);
    vm_compute; reflexivity.
Defined.

(* ===================================================================== *)
(** * Further properties of the lifecycle code *)

(** ** The Registry *)

Lemma registry_wf_same (w w' : World) :
  modules_table w' = modules_table w →
  modules_next_id w' = modules_next_id w →
  registry_wf w → registry_wf w'.
Proof.
  intros Ht Hn [H1 H2 H3 H4]. split; rewrite ?Ht, ?Hn; auto.
Qed.

Lemma add_module_existing_next_id (env : Env) (name file_path : string)
    (is_system : bool) (w w' : World) (res : Result ModuleRecord.t) (r : ModuleRecord.t) :
  modules_table w !! name = Some r →
  add_module env name file_path is_system w = (res, w') →
  modules_next_id w' = modules_next_id w.
Proof.
  intros Hr. unfold_db. unfold_monad.
  destruct (db_faults w) as [|[err|] [|[err'|] fs']] eqn:E; simpl; rewrite ?Hr; simpl;
    rewrite ?E; simpl; intros; by simplify_eq.
Qed.

(** The outcome of an upsert: on success the row of [name] is
    [upserted_row] and no other row changes; a fault changes nothing. *)
Lemma add_module_spec (env : Env) (name file_path : string) (is_system : bool)
    (w w' : World) (res : Result ModuleRecord.t) :
  (∀ r, modules_table w !! name = Some r → ModuleRecord.name r = name) →
  add_module env name file_path is_system w = (res, w') →
  match res with
  | Ret m =>
      m = upserted_row env w name file_path is_system ∧
      modules_table w' = <[name := m]> (modules_table w) ∧
      modules_next_id w' =
        (if modules_table w !! name is Some _ then modules_next_id w
         else S (modules_next_id w))
  | Raise e =>
      modules_table w' = modules_table w ∧ modules_next_id w' = modules_next_id w
  end.
Proof.
  intros Hkey Hadd. unfold upserted_row.
  destruct (modules_table w !! name) as [r|] eqn:Hr.
  - pose proof (Hkey r eq_refl) as Hname.
    destruct (add_module_frame _ _ _ _ _ _ _ Hadd) as (_ & _ & _ & _ & _ & _ & _ & Hraise & _).
    destruct (add_module_existing _ _ _ _ _ _ _ _ Hr Hname Hadd) as [(e & -> & Ht) | [-> Ht]].
    + split; [done|]. by destruct (Hraise e eq_refl) as (_ & _ & ? & _).
    + simpl in Ht. rewrite Hname. split_and!; auto.
      by eapply add_module_existing_next_id.
  - revert Hadd. unfold_db. unfold_monad.
    destruct (db_faults w) as [|[err|] fs] eqn:E; simpl; rewrite ?Hr; simpl;
      intros; by simplify_eq.
Qed.

Lemma registry_wf_insert (env : Env) (name file_path : string) (is_system : bool)
    (w w' : World) :
  registry_wf w →
  modules_table w' =
    <[name := upserted_row env w name file_path is_system]> (modules_table w) →
  modules_next_id w' =
    (if modules_table w !! name is Some _ then modules_next_id w
         else S (modules_next_id w)) →
  registry_wf w'.
Proof.
  intros [Hkey Hlt Hinj Hact] Ht Hn. unfold upserted_row in Ht.
  destruct (modules_table w !! name) as [r0|] eqn:Hr0.
  - pose proof (Hkey _ _ Hr0) as Hname0. split; rewrite ?Ht, ?Hn.
    + intros k r. rewrite lookup_insert. case_decide; [|by apply Hkey].
      intros; by simplify_eq.
    + intros k r. rewrite lookup_insert. case_decide; [|by apply Hlt].
      intros; simplify_eq; simpl. by eapply Hlt.
    + intros k1 k2 r1 r2. rewrite !lookup_insert.
      repeat case_decide; intros; simplify_eq; simpl in *; eauto.
    + intros k r. rewrite lookup_insert. case_decide; [|by apply Hact].
      intros; by simplify_eq.
  - split; rewrite ?Ht, ?Hn.
    + intros k r. rewrite lookup_insert. case_decide; [|by apply Hkey].
      intros; by simplify_eq.
    + intros k r. rewrite lookup_insert. case_decide.
      * intros; simplify_eq; simpl. lia.
      * intros Hr. pose proof (Hlt _ _ Hr). lia.
    + intros k1 k2 r1 r2. rewrite !lookup_insert.
      repeat case_decide; intros; simplify_eq; simpl in *; eauto;
        match goal with H : modules_table w !! _ = Some _ |- _ =>
          pose proof (Hlt _ _ H) end; lia.
    + intros k r. rewrite lookup_insert. case_decide; [|by apply Hact].
      intros; by simplify_eq.
Qed.

Lemma registry_wf_delete (k0 : string) (w w' : World) :
  registry_wf w →
  modules_table w' = base.delete k0 (modules_table w) →
  modules_next_id w' = modules_next_id w →
  registry_wf w'.
Proof.
  intros [Hkey Hlt Hinj Hact] Ht Hn. split; rewrite ?Ht, ?Hn.
  - intros k r Hr. apply lookup_delete_Some in Hr as [_ Hr]. eauto.
  - intros k r Hr. apply lookup_delete_Some in Hr as [_ Hr]. eauto.
  - intros k1 k2 r1 r2 H1 H2. apply lookup_delete_Some in H1 as [_ H1].
    apply lookup_delete_Some in H2 as [_ H2]. eauto.
  - intros k r Hr. apply lookup_delete_Some in Hr as [_ Hr]. eauto.
Qed.

Lemma registry_wf_add_module (env : Env) (name file_path : string) (is_system : bool)
    (w w' : World) (res : Result ModuleRecord.t) :
  registry_wf w →
  add_module env name file_path is_system w = (res, w') → registry_wf w'.
Proof.
  intros Hwf Hadd.
  pose proof (add_module_spec env name file_path is_system w w' res
                (wf_keyed w Hwf name) Hadd) as Hspec.
  destruct res as [m|e].
  - destruct Hspec as (-> & Ht & Hn).
    by apply (registry_wf_insert env name file_path is_system w w').
  - destruct Hspec as [Ht Hn]. by apply (registry_wf_same w w').
Qed.

Lemma registry_wf_delete_module (name : string) (w w' : World) (res : Result bool) :
  registry_wf w → delete_module name w = (res, w') → registry_wf w'.
Proof.
  intros Hwf Hdel.
  destruct (delete_module_result name w)
    as (b & w2 & Heq & _ & _ & Hn & _ & _ & _ & _ & _ & Hf & Ht).
  rewrite Heq in Hdel. simplify_eq. destruct b.
  - destruct (Ht eq_refl) as (r & _ & _ & Htab).
    by apply (registry_wf_delete (ModuleRecord.name r) w w').
  - apply (registry_wf_same w w'); auto.
Qed.

(** X1: the Registry invariant (rows keyed by their own name, ids below the
    counter and pairwise distinct, every row active) survives every upsert
    and every delete, whether the call succeeds, refuses or meets a storage
    fault. *)
Theorem registry_wf_preserved (env : Env) (name file_path : string) (is_system : bool)
    (w : World) :
  registry_wf w →
  (∀ res w', add_module env name file_path is_system w = (res, w') → registry_wf w') ∧
  (∀ res w', delete_module name w = (res, w') → registry_wf w').
Proof.
  intros Hwf. split.
  - intros res w'. by apply registry_wf_add_module.
  - intros res w'. by apply registry_wf_delete_module.
Qed.

(** ** Load, seen from the Registry *)

(** The [try] block either leaves the Registry alone, or ends with the one
    upsert of [module_name], made right after the Catalog insert. *)
Lemma load_module_try_registry (env : Env) (file_path module_name : string)
    (is_system : bool) (w w1 : World) (r : Result bool) :
  load_module_try env file_path module_name is_system w = (r, w1) →
  (r ≠ Ret true ∧ modules_table w1 = modules_table w ∧
   modules_next_id w1 = modules_next_id w)
  ∨
  (∃ a mi w0 ra wa,
     files w !! file_path = Some a ∧
     register_result a = RegisterReturns (VModuleInfo mi) ∧
     loaded_modules w0 =
       <[module_name := ModuleInfo.set_is_system is_system mi]> (loaded_modules w) ∧
     modules_table w0 = modules_table w ∧ modules_next_id w0 = modules_next_id w ∧
     sys_modules w0 = {[module_name]} ∪ sys_modules w ∧
     add_module env module_name file_path is_system w0 = (ra, wa) ∧
     match ra with
     | Ret _ => r = Ret true
     | Raise e => r = Raise e
     end ∧
     loaded_modules w1 = loaded_modules wa ∧ sys_modules w1 = sys_modules wa ∧
     modules_table w1 = modules_table wa ∧ modules_next_id w1 = modules_next_id wa).
Proof.
  unfold load_module_try. unfold mbind at 1. unfold M_bind at 1. unfold gets at 1.
  destruct (files w !! file_path) as [a|] eqn:Hfile.
  2:{ unfold_monad. intros H. simplify_eq. simpl. left. by split_and!. }
  destruct (has_file_loader env file_path) eqn:Hloader; simpl.
  2:{ unfold_monad. intros H. simplify_eq. simpl. left. by split_and!. }
  unfold exec_module.
  destruct (exec_raises a) as [e|] eqn:Hexec.
  { unfold_monad. intros H. simplify_eq. simpl. left. by split_and!. }
  destruct (has_register a) eqn:Hreg; simpl.
  2:{ unfold_monad. intros H. simplify_eq. simpl. left. by split_and!. }
  unfold mbind, M_bind, modify, mret, M_ret. fold (after_exec module_name w).
  destruct (check_dependencies env a module_name (after_exec module_name w))
    as [rd wd] eqn:Hdeps.
  apply check_dependencies_spec in Hdeps as [Hst _].
  destruct Hst as (Hd1 & Hd2 & Hd3 & Hd4 & Hd5 & Hd6 & Hd7 & Hd8 & Hd9). simpl in *.
  destruct rd as [[|]|e]; simpl.
  2:{ intros H. simplify_eq. left. by split_and!. }
  2:{ intros H. simplify_eq. left. by split_and!. }
  unfold register_module, call_register, mbind, M_bind, modify, raise, mret, M_ret.
  destruct (register_result a) as [e|[mi|]] eqn:Hres.
  { intros H. simplify_eq. simpl. left. by split_and!. }
  2:{ unfold logger_error, modify. intros H. simplify_eq. simpl. left. by split_and!. }
  match goal with |- context [add_module env ?n ?p ?s ?w0] =>
    destruct (add_module env n p s w0) as [ra wa] eqn:Hadd; set (wi := w0) in * end.
  unfold logger_info, modify. intros H. right.
  exists a, mi, wi, ra, wa. subst wi. simpl.
  destruct ra as [m|e]; simplify_eq; simpl; split_and!; auto; congruence.
Qed.



(** What a successful load leaves behind. *)
Lemma load_module_success (env : Env) (file_path module_name : string)
    (is_system : bool) (w w' : World) :
  (∀ r, modules_table w !! module_name = Some r → ModuleRecord.name r = module_name) →
  load_module env file_path module_name is_system w = (Ret true, w') →
  ∃ a mi, files w !! file_path = Some a ∧
    register_result a = RegisterReturns (VModuleInfo mi) ∧
    loaded_modules w' =
      <[module_name := ModuleInfo.set_is_system is_system mi]> (loaded_modules w) ∧
    modules_table w' =
      <[module_name := upserted_row env w module_name file_path is_system]>
        (modules_table w) ∧
    sys_modules w' = {[module_name]} ∪ sys_modules w ∧
    files w' = files w ∧ error_logs w' = error_logs w.
Proof.
  intros Hkey Hload.
  destruct (load_module_outcome _ _ _ _ _ _ _ Hload)
    as [[Hbody _] | (e & w1 & _ & _ & ? & _)]; [|done].
  pose proof (load_module_try_cases _ _ _ _ _ _ _ Hbody) as (Herr & Hfiles & _).
  apply load_module_try_registry in Hbody
    as [(? & _) | (a & mi & wi & ra & wa & Hf & Hres & Hci & Hti & Hni & Hsi & Hadd
                   & Hra & Hc & Hs & Ht & Hn)]; [done|].
  destruct ra as [m|e]; [|done].
  destruct (add_module_frame _ _ _ _ _ _ _ Hadd) as (Hca & Hsa & _).
  assert (∀ r, modules_table wi !! module_name = Some r → ModuleRecord.name r = module_name)
    as Hkeyi by (rewrite Hti; exact Hkey).
  pose proof (add_module_spec env _ _ _ _ _ _ Hkeyi Hadd) as (Hm & Hta & _).
  exists a, mi. split_and!; auto; try congruence.
  rewrite Ht, Hta, Hm, Hti. unfold upserted_row. by rewrite Hti, Hni.
Qed.

(** X3: a load that returns [True] has put the descriptor returned by the
    entrypoint in the Catalog under the module name, tagged with the caller's
    origin class, has upserted the Registry row of that name (keeping id,
    origin and creation time of an existing row, taking the new path and
    timestamp), has left the module in [sys.modules], and has touched neither
    the artifact storage nor the Error Sink nor any other Catalog or Registry
    entry. *)
Theorem load_success_postcondition (env : Env) (file_path module_name : string)
    (is_system : bool) (w w' : World) :
  (∀ r, modules_table w !! module_name = Some r → ModuleRecord.name r = module_name) →
  load_module env file_path module_name is_system w = (Ret true, w') →
  ∃ a mi, files w !! file_path = Some a ∧
    register_result a = RegisterReturns (VModuleInfo mi) ∧
    loaded_modules w' =
      <[module_name := ModuleInfo.set_is_system is_system mi]> (loaded_modules w) ∧
    modules_table w' =
      <[module_name := upserted_row env w module_name file_path is_system]>
        (modules_table w) ∧
    sys_modules w' = {[module_name]} ∪ sys_modules w ∧
    files w' = files w ∧ error_logs w' = error_logs w.
Proof. apply load_module_success. Qed.

Lemma load_success_postcondition_witness :
  load_module env0 foo_path "foo" false world_foo_file =
    (Ret true, snd (load_module env0 foo_path "foo" false world_foo_file)) ∧
  ∃ a mi, files world_foo_file !! foo_path = Some a ∧
    register_result a = RegisterReturns (VModuleInfo mi) ∧
    loaded_modules (snd (load_module env0 foo_path "foo" false world_foo_file)) =
      <[ "foo" := ModuleInfo.set_is_system false mi]> (loaded_modules world_foo_file) ∧
    modules_table (snd (load_module env0 foo_path "foo" false world_foo_file)) =
      <[ "foo" := upserted_row env0 world_foo_file "foo" foo_path false]>
        (modules_table world_foo_file) ∧
    sys_modules (snd (load_module env0 foo_path "foo" false world_foo_file)) =
      {[ "foo" ]} ∪ sys_modules world_foo_file ∧
    files (snd (load_module env0 foo_path "foo" false world_foo_file)) =
      files world_foo_file ∧
    error_logs (snd (load_module env0 foo_path "foo" false world_foo_file)) =
      error_logs world_foo_file.
Proof.
  split; [vm_compute; reflexivity|].
  apply (load_success_postcondition env0 foo_path "foo" false world_foo_file).
  - intros r Hr. vm_compute in Hr. discriminate.
  - vm_compute. reflexivity.
Defined.



(** X5: a delete is final. After [delete_module] has returned [True] the name
    has no row: a lookup answers [None] and a second delete answers [False]
    and changes nothing, whatever the storage does. *)
Theorem delete_is_final (name : string) (w w1 : World) :
  (∀ r, modules_table w !! name = Some r → ModuleRecord.name r = name) →
  delete_module name w = (Ret true, w1) →
  modules_table w1 !! name = None ∧
  (∀ o w2, get_module name w1 = (o, w2) → o = Ret None) ∧
  (∀ res w2, delete_module name w1 = (res, w2) →
     res = Ret false ∧ modules_table w2 = modules_table w1).
Proof.
  intros Hkey Hdel.
  destruct (delete_module_result name w)
    as (b & w' & Heq & _ & _ & _ & _ & _ & _ & _ & _ & _ & Ht).
  rewrite Heq in Hdel. simplify_eq.
  destruct (Ht eq_refl) as (r & Hr & _ & Htab).
  rewrite (Hkey r Hr) in Htab.
  assert (modules_table w1 !! name = None) as Hnone by (by rewrite Htab, lookup_delete_eq).
  split_and!; auto.
  - intros o w2 Hget. destruct (get_module_result name w1)
      as (o' & w3 & Hg & _ & _ & _ & _ & _ & _ & _ & _ & _ & Ho & _).
    rewrite Hg in Hget. simplify_eq. destruct Ho; congruence.
  - intros res w2. apply delete_module_refused. by left.
Qed.

Lemma delete_is_final_witness :
  delete_module "foo" world_foo_user =
    (Ret true, snd (delete_module "foo" world_foo_user)) ∧
  modules_table (snd (delete_module "foo" world_foo_user)) !! "foo" = None.
Proof.
  split; [vm_compute; reflexivity|].
  apply (delete_is_final "foo" world_foo_user (snd (delete_module "foo" world_foo_user))).
  - intros r Hr. vm_compute in Hr. by simplify_eq.
  - vm_compute. reflexivity.
Defined.

Lemma world0_wf : registry_wf world0.
Proof. split; intros *; simpl; rewrite ?lookup_empty; intros; simplify_eq. Qed.

Lemma registry_wf_preserved_witness :
  registry_wf world0 ∧
  registry_wf (snd (add_module env0 "foo" foo_path false world0)) ∧
  registry_wf (snd (delete_module "foo" world0)).
Proof.
  split; [exact world0_wf|]. split.
  - apply (proj1 (registry_wf_preserved env0 "foo" foo_path false world0 world0_wf)
             (fst (add_module env0 "foo" foo_path false world0))).
    vm_compute. reflexivity.
  - apply (proj2 (registry_wf_preserved env0 "foo" foo_path false world0 world0_wf)
             (fst (delete_module "foo" world0))).
    vm_compute. reflexivity.
Defined.


(** ** The views of the Catalog *)

Import catalog.

Lemma system_view_lookup (w : World) (name : string) (mi : ModuleInfo.t) :
  get_all_system_modules w !! name = Some mi ↔
  loaded_modules w !! name = Some mi ∧ ModuleInfo.is_system mi = true.
Proof. unfold get_all_system_modules. by rewrite map_lookup_filter_Some. Qed.

Lemma user_view_lookup (w : World) (name : string) (mi : ModuleInfo.t) :
  get_all_user_modules w !! name = Some mi ↔
  loaded_modules w !! name = Some mi ∧ ModuleInfo.is_system mi = false.
Proof. unfold get_all_user_modules. by rewrite map_lookup_filter_Some. Qed.

(** X6: the two views split the Catalog: every live module is listed by
    exactly one of [get_all_system_modules] and [get_all_user_modules], with
    the descriptor the Catalog holds, and neither view lists anything that is
    not live. *)
Theorem catalog_views_partition (w : World) :
  get_all_system_modules w ∪ get_all_user_modules w = loaded_modules w ∧
  get_all_system_modules w ##ₘ get_all_user_modules w.
Proof.
  split.
  - apply map_eq. intros name. apply option_eq. intros mi.
    rewrite lookup_union_Some_raw, system_view_lookup, user_view_lookup.
    split.
    + intros [[? _] | [_ [? _]]]; done.
    + intros Hl. destruct (ModuleInfo.is_system mi) eqn:Hs; [by left|].
      right. split; [|done].
      destruct (get_all_system_modules w !! name) as [mi'|] eqn:Hv; [|done].
      apply system_view_lookup in Hv as [? ?]. congruence.
  - apply map_disjoint_spec. intros name m1 m2 H1 H2.
    apply system_view_lookup in H1 as [? ?]. apply user_view_lookup in H2 as [? ?].
    congruence.
Qed.

(** X7: the origin class shown by the views is the one the caller of
    [load_module] passed, never the one the module wrote in its own
    descriptor: after a successful load with [is_system = false] the module
    is listed among the user modules and not among the system modules, and
    symmetrically for [true]. *)
Theorem views_follow_caller (env : Env) (file_path module_name : string)
    (is_system : bool) (w w' : World) :
  (∀ r, modules_table w !! module_name = Some r → ModuleRecord.name r = module_name) →
  load_module env file_path module_name is_system w = (Ret true, w') →
  if is_system
  then is_Some (get_all_system_modules w' !! module_name) ∧
       get_all_user_modules w' !! module_name = None
  else is_Some (get_all_user_modules w' !! module_name) ∧
       get_all_system_modules w' !! module_name = None.
Proof.
  intros Hkey Hload.
  destruct (load_module_success _ _ _ _ _ _ Hkey Hload) as (a & mi & _ & _ & Hc & _).
  assert (loaded_modules w' !! module_name =
            Some (ModuleInfo.set_is_system is_system mi)) as Hl
    by (by rewrite Hc, lookup_insert_eq).
  destruct is_system; split.
  - eexists. apply system_view_lookup. by split.
  - destruct (get_all_user_modules w' !! module_name) as [m|] eqn:Hv; [|done].
    apply user_view_lookup in Hv as [? ?]. by simplify_eq.
  - eexists. apply user_view_lookup. by split.
  - destruct (get_all_system_modules w' !! module_name) as [m|] eqn:Hv; [|done].
    apply system_view_lookup in Hv as [? ?]. by simplify_eq.
Qed.

Lemma views_follow_caller_witness :
  ModuleInfo.is_system bar_info = true ∧
  is_Some (get_all_user_modules
             (snd (load_module env0 "modules/user/bar.py" "bar" false
                     (set_files (insert "modules/user/bar.py" bar_artifact) world0)))
           !! "bar") ∧
  get_all_system_modules
    (snd (load_module env0 "modules/user/bar.py" "bar" false
            (set_files (insert "modules/user/bar.py" bar_artifact) world0)))
    !! "bar" = None.
Proof.
  split; [reflexivity|].
  apply (views_follow_caller env0 "modules/user/bar.py" "bar" false
           (set_files (insert "modules/user/bar.py" bar_artifact) world0)).
  - intros r Hr. vm_compute in Hr. discriminate.
  - vm_compute. reflexivity.
Defined.

(** ** What a load runs and where it leaves traces *)

(** The calls the [try] block makes and what it does to [sys.modules]. *)
Lemma load_module_try_trace (env : Env) (file_path module_name : string)
    (is_system : bool) (w w1 : World) (r : Result bool) :
  load_module_try env file_path module_name is_system w = (r, w1) →
  ∃ l, calls w1 = calls w ++ l ∧
    (∀ c, c ∈ l → c = CallExec module_name ∨ c = CallRegister module_name ∨
                  ∃ rc, c = CallRun rc ∧ timeout rc = 300%Z) ∧
    match files w !! file_path with
    | Some a =>
        if has_file_loader env file_path
        then sys_modules w1 = {[module_name]} ∪ sys_modules w ∧ CallExec module_name ∈ l
        else sys_modules w1 = sys_modules w ∧ l = []
    | None => sys_modules w1 = sys_modules w ∧ l = []
    end.
Proof.
  unfold load_module_try. unfold mbind at 1. unfold M_bind at 1. unfold gets at 1.
  destruct (files w !! file_path) as [a|] eqn:Hfile.
  2:{ unfold_monad. intros H. simplify_eq. simpl. exists []. rewrite app_nil_r.
      split_and!; auto. intros c Hc. by apply elem_of_nil in Hc. }
  destruct (has_file_loader env file_path) eqn:Hloader; simpl.
  2:{ unfold_monad. intros H. simplify_eq. simpl. exists []. rewrite app_nil_r.
      split_and!; auto. intros c Hc. by apply elem_of_nil in Hc. }
  assert (∀ c : Call, c ∈ [CallExec module_name] →
            c = CallExec module_name ∨ c = CallRegister module_name ∨
            ∃ rc, c = CallRun rc ∧ timeout rc = 300%Z) as Hone.
  { intros c Hc. apply list_elem_of_singleton in Hc. auto. }
  unfold exec_module.
  destruct (exec_raises a) as [e|] eqn:Hexec.
  { unfold_monad. intros H. simplify_eq. simpl. exists [CallExec module_name].
    split_and!; auto. by apply list_elem_of_singleton. }
  destruct (has_register a) eqn:Hreg; simpl.
  2:{ unfold_monad. intros H. simplify_eq. simpl. exists [CallExec module_name].
      split_and!; auto. by apply list_elem_of_singleton. }
  unfold mbind, M_bind, modify, mret, M_ret. fold (after_exec module_name w).
  destruct (check_dependencies env a module_name (after_exec module_name w))
    as [rd wd] eqn:Hdeps.
  apply check_dependencies_spec in Hdeps as [Hst Hdeps].
  destruct Hst as (_ & Hd2 & _). simpl in Hd2.
  assert (∃ ds, calls wd = calls w ++ CallExec module_name :: install_calls env ds)
    as [ds Hcd].
  { destruct (DEPENDENCIES a) as [[|dep rest]|].
    - destruct Hdeps as [_ ->]. exists []. done.
    - apply install_dependencies_spec in Hdeps as (_ & att & _ & _ & Hc & _).
      exists att. rewrite Hc. simpl. by rewrite <- app_assoc.
    - destruct Hdeps as [_ ->]. exists []. done. }
  assert (∀ l' c, (∀ c', c' ∈ l' → c' = CallRegister module_name) →
            c ∈ CallExec module_name :: install_calls env ds ++ l' →
            c = CallExec module_name ∨ c = CallRegister module_name ∨
            ∃ rc, c = CallRun rc ∧ timeout rc = 300%Z) as Hshape.
  { intros l' c Hl' Hc. apply elem_of_cons in Hc as [-> | Hc]; [auto|].
    apply elem_of_app in Hc as [Hc | Hc]; [|right; left; auto].
    right. right. unfold install_calls in Hc.
    apply list_elem_of_fmap in Hc as (dep & -> & _). by eexists. }
  destruct rd as [[|]|e]; simpl.
  - intros Hreg'. apply register_module_calls in Hreg' as Hc1.
    assert (sys_modules w1 = sys_modules wd) as Hs1.
    { revert Hreg'. unfold register_module, call_register. unfold_monad.
      destruct (register_result a) as [e|[mi|]]; simpl; try (intros; by simplify_eq).
      match goal with |- context [add_module env ?n ?p ?s ?w0] =>
        destruct (add_module env n p s w0) as [ra wa] eqn:Hadd end.
      apply add_module_frame in Hadd as (_ & Hs & _). simpl in Hs.
      destruct ra; intros; by simplify_eq. }
    exists (CallExec module_name :: install_calls env ds ++ [CallRegister module_name]).
    split_and!.
    + rewrite Hc1, Hcd. by rewrite <- app_assoc.
    + intros c. apply Hshape. intros c' Hc'. by apply list_elem_of_singleton in Hc'.
    + congruence.
    + apply elem_of_cons. by left.
  - intros H. simplify_eq. exists (CallExec module_name :: install_calls env ds ++ []).
    split_and!; auto.
    + by rewrite app_nil_r.
    + intros c. apply Hshape. intros c' Hc'. by apply elem_of_nil in Hc'.
    + apply elem_of_cons. by left.
  - intros H. simplify_eq. exists (CallExec module_name :: install_calls env ds ++ []).
    split_and!; auto.
    + by rewrite app_nil_r.
    + intros c. apply Hshape. intros c' Hc'. by apply elem_of_nil in Hc'.
    + apply elem_of_cons. by left.
Qed.

(** The same for [load_module] as a whole, with the files and the Error Sink. *)
Lemma load_module_trace (env : Env) (file_path module_name : string)
    (is_system : bool) (w w' : World) (r : Result bool) :
  load_module env file_path module_name is_system w = (r, w') →
  files w' = files w ∧
  (error_logs w' = error_logs w ∨
   ∃ e, r = Ret false ∧ error_logs w' = error_logs w ++ [sink_row env w module_name e]) ∧
  (r = Ret true → error_logs w' = error_logs w) ∧
  ∃ l, calls w' = calls w ++ l ∧
    (∀ c, c ∈ l → c = CallExec module_name ∨ c = CallRegister module_name ∨
                  ∃ rc, c = CallRun rc ∧ timeout rc = 300%Z) ∧
    match files w !! file_path with
    | Some a =>
        if has_file_loader env file_path
        then sys_modules w' = {[module_name]} ∪ sys_modules w ∧ CallExec module_name ∈ l
        else sys_modules w' = sys_modules w ∧ l = []
    | None => sys_modules w' = sys_modules w ∧ l = []
    end.
Proof.
  intros Hload.
  destruct (load_module_outcome _ _ _ _ _ _ _ Hload)
    as [[Hbody _] | (e & w1 & Hbody & Hexc & -> & Hexcept)].
  - pose proof (load_module_try_cases _ _ _ _ _ _ _ Hbody) as (Herr & Hfiles & _).
    split_and!; auto. by apply load_module_try_trace in Hbody.
  - pose proof (load_module_try_cases _ _ _ _ _ _ _ Hbody) as (Herr & Hfiles & _).
    destruct (load_module_except_result env module_name e w1)
      as (w2 & Heq & _ & Hs & _ & _ & _ & Hf & Hc & _ & _ & Hsink).
    rewrite Heq in Hexcept. simplify_eq.
    apply load_module_try_trace in Hbody as (l & Hl & Hshape & Hsys).
    split_and!; [congruence | | done |].
    + unfold sink_row in *. rewrite Herr in Hsink.
      destruct (db_faults w1) as [|[?|] ?]; eauto.
    + exists l. rewrite Hc, Hs. by split_and!.
Qed.

(** X8: a load runs nobody else's code. The calls it adds are the execution
    of its own file, the installer (always with timeout 300) and its own
    registration entrypoint; when the file is missing or has no loader,
    nothing is called at all and [sys.modules] is unchanged. *)
Theorem load_runs_only_its_module (env : Env) (file_path module_name : string)
    (is_system : bool) (w w' : World) (r : Result bool) :
  load_module env file_path module_name is_system w = (r, w') →
  ∃ l, calls w' = calls w ++ l ∧
    (∀ c, c ∈ l → c = CallExec module_name ∨ c = CallRegister module_name ∨
                  ∃ rc, c = CallRun rc ∧ timeout rc = 300%Z) ∧
    (files w !! file_path = None ∨ has_file_loader env file_path = false →
       l = [] ∧ sys_modules w' = sys_modules w ∧ r = Ret false).
Proof.
  intros Hload.
  destruct (load_module_trace _ _ _ _ _ _ _ Hload) as (_ & _ & _ & l & Hl & Hshape & Hcase).
  exists l. split_and!; auto. intros Hmiss.
  assert (l = [] ∧ sys_modules w' = sys_modules w) as [-> Hs].
  { destruct Hmiss as [Hnone | Hnl].
    - rewrite Hnone in Hcase. by destruct Hcase.
    - destruct (files w !! file_path); rewrite ?Hnl in Hcase; by destruct Hcase. }
  split_and!; auto.
  unfold load_module, load_module_try in Hload. unfold_monad.
  destruct Hmiss as [Hnone | Hnl].
  - rewrite Hnone in Hload. simpl in Hload. by simplify_eq.
  - destruct (files w !! file_path); rewrite ?Hnl in Hload; simpl in Hload; by simplify_eq.
Qed.

Lemma load_runs_only_its_module_witness :
  ∃ l, calls (snd (load_module env_no_beta foo_path "foo" false
                     (set_files (insert foo_path beta_artifact) world0))) =
         calls (set_files (insert foo_path beta_artifact) world0) ++ l ∧
    (∀ c, c ∈ l → c = CallExec "foo" ∨ c = CallRegister "foo" ∨
                  ∃ rc, c = CallRun rc ∧ timeout rc = 300%Z) ∧
    (files (set_files (insert foo_path beta_artifact) world0) !! foo_path = None ∨
     has_file_loader env_no_beta foo_path = false →
       l = [] ∧
       sys_modules (snd (load_module env_no_beta foo_path "foo" false
                           (set_files (insert foo_path beta_artifact) world0))) =
         sys_modules (set_files (insert foo_path beta_artifact) world0) ∧
       fst (load_module env_no_beta foo_path "foo" false
              (set_files (insert foo_path beta_artifact) world0)) = Ret false).
Proof.
  apply (load_runs_only_its_module env_no_beta foo_path "foo" false
           (set_files (insert foo_path beta_artifact) world0)).
  vm_compute. reflexivity.
Defined.

(** X9: once a module file has been found and has a loader, its name is in
    [sys.modules] after the load whatever the outcome: a load that fails in
    the module's code, in provisioning or in registration leaves the
    half-initialised module registered there. *)
Theorem failed_load_stays_in_sys_modules (env : Env) (file_path module_name : string)
    (is_system : bool) (w w' : World) (r : Result bool) (a : Artifact) :
  files w !! file_path = Some a →
  has_file_loader env file_path = true →
  load_module env file_path module_name is_system w = (r, w') →
  sys_modules w' = {[module_name]} ∪ sys_modules w ∧ module_name ∈ sys_modules w'.
Proof.
  intros Hfile Hloader Hload.
  destruct (load_module_trace _ _ _ _ _ _ _ Hload) as (_ & _ & _ & l & _ & _ & Hcase).
  rewrite Hfile, Hloader in Hcase. destruct Hcase as [Hs _].
  split; [done|]. rewrite Hs. apply elem_of_union. left. by apply elem_of_singleton.
Qed.

Lemma failed_load_stays_in_sys_modules_witness :
  fst (load_module env0 foo_path "foo" false world_broken_file) = Ret false ∧
  ("foo" ∉ sys_modules world_broken_file) ∧
  ("foo" ∈ sys_modules (snd (load_module env0 foo_path "foo" false world_broken_file))).
Proof.
  split; [vm_compute; reflexivity|]. split; [apply not_elem_of_empty|].
  apply (failed_load_stays_in_sys_modules env0 foo_path "foo" false world_broken_file
           (snd (load_module env0 foo_path "foo" false world_broken_file))
           (fst (load_module env0 foo_path "foo" false world_broken_file))
           broken_artifact);
    vm_compute; reflexivity.
Defined.



(** ** Provisioning, unload and reload *)

(** X11: [_install_dependencies] returns [True] exactly when the installer
    completes with status 0 on every specifier of the list; it has then been
    called once per specifier, in list order. The empty list succeeds without
    any call. *)
Theorem install_succeeds_iff_all_install (env : Env) (deps : list string)
    (module_name : string) (w w' : World) (r : Result bool) :
  _install_dependencies env deps module_name w = (r, w') →
  (r = Ret true ↔ installs_ok env (calls w) deps = true) ∧
  (r = Ret true → calls w' = calls w ++ install_calls env deps) ∧
  (deps = [] → r = Ret true ∧ calls w' = calls w).
Proof.
  intros H.
  apply install_dependencies_spec in H as (_ & attempted & rest & -> & Hcalls & Hr).
  destruct r as [[|]|e].
  - destruct Hr as [-> Hok]. rewrite app_nil_r in *. split_and!.
    + by split.
    + done.
    + intros ->. split; [done|]. by rewrite Hcalls, app_nil_r.
  - destruct Hr as (pre & dep & -> & Hok & Hrun).
    assert (installs_ok env (calls w) ((pre ++ [dep]) ++ rest) = false) as Hbad.
    { rewrite !installs_ok_app, Hok. simpl.
      destruct (run env _ _) as [p|e]; [|done].
      destruct Hrun as [Hcode _]. apply Z.eqb_neq in Hcode. by rewrite Hcode. }
    split_and!; try done.
    + split; [done | congruence].
    + intros Hnil. apply app_eq_nil in Hnil as [Hnil _]. by destruct pre.
  - destruct Hr as (_ & pre & dep & -> & Hok & Hrun).
    assert (installs_ok env (calls w) ((pre ++ [dep]) ++ rest) = false) as Hbad.
    { rewrite !installs_ok_app, Hok. simpl. by rewrite Hrun. }
    split_and!; try done.
    + split; [done | congruence].
    + intros Hnil. apply app_eq_nil in Hnil as [Hnil _]. by destruct pre.
Qed.

Lemma install_succeeds_iff_all_install_witness :
  (fst (_install_dependencies env_no_beta ["alpha"; "beta"] "m" world0) = Ret true ↔
     installs_ok env_no_beta (calls world0) ["alpha"; "beta"] = true) ∧
  (fst (_install_dependencies env_no_beta ["alpha"; "beta"] "m" world0) = Ret true →
     calls (snd (_install_dependencies env_no_beta ["alpha"; "beta"] "m" world0)) =
       calls world0 ++ install_calls env_no_beta ["alpha"; "beta"]) ∧
  (["alpha"; "beta"] = [] →
     fst (_install_dependencies env_no_beta ["alpha"; "beta"] "m" world0) = Ret true ∧
     calls (snd (_install_dependencies env_no_beta ["alpha"; "beta"] "m" world0)) =
       calls world0).
Proof.
  apply (install_succeeds_iff_all_install env_no_beta ["alpha"; "beta"] "m" world0).
  vm_compute. reflexivity.
Defined.

(** X12: unloading a live module returns [True] and removes exactly its
    Catalog entry and its [sys.modules] entry; the Registry (the row stays,
    and stays active), the artifact storage, the Error Sink and every other
    Catalog entry are untouched. *)
Theorem unload_live_module (w : World) (module_name : string) (mi : ModuleInfo.t) :
  loaded_modules w !! module_name = Some mi →
  ∃ w', unload_module module_name w = (Ret true, w') ∧
    loaded_modules w' = base.delete module_name (loaded_modules w) ∧
    sys_modules w' = sys_modules w ∖ {[module_name]} ∧
    modules_table w' = modules_table w ∧ files w' = files w ∧
    error_logs w' = error_logs w ∧ calls w' = calls w.
Proof.
  intros Hlive. unfold unload_module. unfold_monad.
  destruct (decide (is_Some (loaded_modules w !! module_name))) as [_|Hn].
  - eexists. split; [reflexivity|]. simpl. by split_and!.
  - exfalso. apply Hn. eauto.
Qed.

Lemma unload_live_module_witness :
  loaded_modules world_foo_user !! "foo" = Some old_foo_info ∧
  ∃ w', unload_module "foo" world_foo_user = (Ret true, w') ∧
    loaded_modules w' = base.delete "foo" (loaded_modules world_foo_user) ∧
    sys_modules w' = sys_modules world_foo_user ∖ {["foo"]} ∧
    modules_table w' = modules_table world_foo_user ∧ files w' = files world_foo_user ∧
    error_logs w' = error_logs world_foo_user ∧ calls w' = calls world_foo_user.
Proof.
  split; [vm_compute; reflexivity|].
  apply (unload_live_module world_foo_user "foo" old_foo_info).
  vm_compute. reflexivity.
Defined.

(** X13: a reload that succeeds, with the storage answering, serves the
    descriptor the stored file now returns, tagged with the origin class of
    the Registry row; the row keeps its id, name, path, origin class and
    creation time, is active and carries the current time as [updated_at];
    every other Catalog and Registry entry is as before. *)
Theorem reload_success (env : Env) (module_name : string) (w w' : World)
    (rec : ModuleRecord.t) :
  modules_table w !! module_name = Some rec →
  ModuleRecord.name rec = module_name →
  db_faults w = [] →
  reload_module env module_name w = (Ret true, w') →
  ∃ a mi, files w !! ModuleRecord.file_path rec = Some a ∧
    register_result a = RegisterReturns (VModuleInfo mi) ∧
    loaded_modules w' =
      <[module_name := ModuleInfo.set_is_system (ModuleRecord.is_system rec) mi]>
        (loaded_modules w) ∧
    modules_table w' =
      <[module_name :=
          ModuleRecord.mk (ModuleRecord.id rec) module_name (ModuleRecord.file_path rec)
            (ModuleRecord.is_system rec) true (ModuleRecord.added_at rec) (now env)]>
        (modules_table w).
Proof.
  intros Hrec Hname Hf Hreload.
  destruct (get_module_result module_name w) as (o & w0 & Hget & Hrest).
  destruct Hrest as (_ & _ & _ & _ & _ & _ & _ & _ & _ & _ & Hh).
  destruct (Hh Hf) as [-> ->]. rewrite Hrec in Hget.
  rewrite (reload_module_found env _ _ _ _ Hget) in Hreload.
  destruct (unload_module_result w module_name)
    as (b & w2 & Hu & _ & Hcat & Htab & _ & Hfiles & _).
  rewrite Hu in Hreload. simpl in Hreload.
  apply load_module_success in Hreload as (a & mi & Hfa & Hres & Hc & Ht & _).
  - exists a, mi. split_and!; [congruence | done | |].
    + by rewrite Hc, Hcat, insert_delete_eq.
    + rewrite Ht, Htab. unfold upserted_row. by rewrite Htab, Hrec, Hname.
  - rewrite Htab. intros r Hr. congruence.
Qed.

Lemma reload_success_witness :
  modules_table world_foo_user !! "foo" = Some foo_record ∧
  ∃ a mi, files world_foo_user !! ModuleRecord.file_path foo_record = Some a ∧
    register_result a = RegisterReturns (VModuleInfo mi) ∧
    loaded_modules (snd (reload_module env0 "foo" world_foo_user)) =
      <[ "foo" := ModuleInfo.set_is_system (ModuleRecord.is_system foo_record) mi]>
        (loaded_modules world_foo_user) ∧
    modules_table (snd (reload_module env0 "foo" world_foo_user)) =
      <[ "foo" :=
          ModuleRecord.mk (ModuleRecord.id foo_record) "foo"
            (ModuleRecord.file_path foo_record) (ModuleRecord.is_system foo_record) true
            (ModuleRecord.added_at foo_record) (now env0)]>
        (modules_table world_foo_user).
Proof.
  split; [vm_compute; reflexivity|].
  apply (reload_success env0 "foo" world_foo_user
           (snd (reload_module env0 "foo" world_foo_user)) foo_record);
    vm_compute; reflexivity.
Defined.

(** ** Permissions *)

(** X14: the permission check fails closed. Whatever the storage does,
    [is_admin] never raises and answers [True] only for the configured
    principal or for a user listed in the admins table; the principal is
    accepted without consulting the storage, and a listed user is refused
    when the lookup faults. *)
Theorem is_admin_sound (env : Env) (user_id : Z) (w w' : World) (r : Result bool) :
  manager.is_admin env user_id w = (r, w') →
  ∃ b, r = Ret b ∧
    (b = true → user_id = admin_id env ∨ user_id ∈ admins w) ∧
    (user_id = admin_id env → b = true ∧ w' = w) ∧
    (user_id ≠ admin_id env → (∃ err rest, db_faults w = Some err :: rest) → b = false) ∧
    admins w' = admins w.
Proof.
  unfold manager.is_admin.
  destruct (decide (user_id = admin_id env)) as [Hid|Hid].
  - unfold_monad. intros H. simplify_eq. exists true. split_and!; auto. done.
  - unfold_db. unfold_monad.
    destruct (db_faults w) as [|[err|] fs] eqn:E; simpl; intros H; simplify_eq; simpl;
      eexists; (split; [reflexivity|]); split_and!; auto; try done;
      try (intros Hb; right; by apply bool_decide_eq_true in Hb);
      try (intros _ (err' & rest & ?); done).
Qed.

Lemma is_admin_sound_witness :
  ∃ b, fst (manager.is_admin env0 7 (set_db_faults [Some db_locked] world0)) = Ret b ∧
    (b = true → 7%Z = admin_id env0 ∨ 7%Z ∈ admins (set_db_faults [Some db_locked] world0)) ∧
    (7%Z = admin_id env0 →
       b = true ∧
       snd (manager.is_admin env0 7 (set_db_faults [Some db_locked] world0)) =
         set_db_faults [Some db_locked] world0) ∧
    (7%Z ≠ admin_id env0 →
       (∃ err rest, db_faults (set_db_faults [Some db_locked] world0) = Some err :: rest) →
       b = false) ∧
    admins (snd (manager.is_admin env0 7 (set_db_faults [Some db_locked] world0))) =
      admins (set_db_faults [Some db_locked] world0).
Proof.
  apply (is_admin_sound env0 7 (set_db_faults [Some db_locked] world0)).
  vm_compute. reflexivity.
Defined.

Lemma admin_required_denied (env : Env) (message : Message) (w : World) :
  from_user_id message ≠ admin_id env →
  from_user_id message ∉ admins w →
  ∃ w1, admin_required env message w = (Ret false, w1) ∧
    loaded_modules w1 = loaded_modules w ∧ sys_modules w1 = sys_modules w ∧
    modules_table w1 = modules_table w ∧ files w1 = files w ∧
    error_logs w1 = error_logs w ∧ calls w1 = calls w ∧
    outbox w1 = outbox w ++ [{| reply_key := "not_admin"; reply_kwargs := [];
                                reply_keyboard := [] |}].
Proof.
  intros Hid Hnot. unfold admin_required, manager.is_admin, answer. unfold_db. unfold_monad.
  destruct (decide (from_user_id message = admin_id env)) as [?|_]; [done|].
  assert (bool_decide (from_user_id message ∈ admins w) = false) as Hb
    by (by apply bool_decide_eq_false).
  destruct (db_faults w) as [|[err|] fs] eqn:E; simpl; rewrite ?Hb; simpl;
    eexists; (split; [reflexivity|]); simpl; by split_and!.
Qed.

(** X15: a request from an actor who is neither the configured principal
    nor a listed administrator changes nothing: /lm and /ulm answer
    "not_admin" and leave Catalog, Registry, artifact storage, [sys.modules],
    Error Sink and module code untouched. *)
Theorem unauthorized_requests_change_nothing (env : Env) (message : Message) (w : World) :
  from_user_id message ≠ admin_id env →
  from_user_id message ∉ admins w →
  (∀ r w', load_module_handler env message w = (r, w') →
     r = Ret tt ∧ loaded_modules w' = loaded_modules w ∧
     modules_table w' = modules_table w ∧ files w' = files w ∧
     sys_modules w' = sys_modules w ∧ error_logs w' = error_logs w ∧
     calls w' = calls w ∧
     outbox w' = outbox w ++ [{| reply_key := "not_admin"; reply_kwargs := [];
                                 reply_keyboard := [] |}]) ∧
  (∀ r w', unload_module_handler env message w = (r, w') →
     r = Ret tt ∧ loaded_modules w' = loaded_modules w ∧
     modules_table w' = modules_table w ∧ files w' = files w ∧
     sys_modules w' = sys_modules w ∧ error_logs w' = error_logs w ∧
     calls w' = calls w ∧
     outbox w' = outbox w ++ [{| reply_key := "not_admin"; reply_kwargs := [];
                                 reply_keyboard := [] |}]).
Proof.
  intros Hid Hnot.
  destruct (admin_required_denied env message w Hid Hnot) as (w1 & Heq & Hrest).
  split; intros r w'.
  - unfold load_module_handler. unfold mbind at 1. unfold M_bind at 1.
    rewrite Heq. unfold mret, M_ret. simpl. intros H. simplify_eq.
    destruct Hrest as (?&?&?&?&?&?&?). by split_and!.
  - unfold unload_module_handler. unfold mbind at 1. unfold M_bind at 1.
    rewrite Heq. unfold mret, M_ret. simpl. intros H. simplify_eq.
    destruct Hrest as (?&?&?&?&?&?&?). by split_and!.
Qed.

Lemma unauthorized_requests_change_nothing_witness :
  loaded_modules (snd (unload_module_handler env0
     {| from_user_id := 7; text := "/ulm foo"; reply_document := None |} world_foo_user)) =
    loaded_modules world_foo_user ∧
  modules_table (snd (unload_module_handler env0
     {| from_user_id := 7; text := "/ulm foo"; reply_document := None |} world_foo_user)) =
    modules_table world_foo_user.
Proof.
  destruct (proj2 (unauthorized_requests_change_nothing env0
              {| from_user_id := 7; text := "/ulm foo"; reply_document := None |}
              world_foo_user ltac:(discriminate) ltac:(apply not_elem_of_empty))
              (fst (unload_module_handler env0
                 {| from_user_id := 7; text := "/ulm foo"; reply_document := None |}
                 world_foo_user))
              (snd (unload_module_handler env0
                 {| from_user_id := 7; text := "/ulm foo"; reply_document := None |}
                 world_foo_user))
              ltac:(vm_compute; reflexivity))
    as (_ & Hc & Ht & _).
  split; [exact Hc | exact Ht].
Defined.

(** ** The overwrite token *)

Lemma string_app_nil_r (s : string) : s +:+ EmptyString = s.
Proof.
  induction s as [|c s IH]; [done|].
  change (String c (s +:+ EmptyString) = String c s). by rewrite IH.
Qed.

Lemma string_app_snoc (cur s : string) (c : Ascii.ascii) :
  (cur +:+ String c EmptyString) +:+ s = cur +:+ String c s.
Proof.
  induction cur as [|d cur IH]; [done|].
  change (String d ((cur +:+ String c EmptyString) +:+ s) = String d (cur +:+ String c s)).
  by rewrite IH.
Qed.

Lemma split_go_exhausted (sep : Ascii.ascii) (s cur : string) :
  split_go sep 0 cur s = [cur +:+ s].
Proof.
  revert cur. induction s as [|c s IH]; intros cur; simpl.
  - by rewrite string_app_nil_r.
  - by rewrite IH, string_app_snoc.
Qed.

Lemma token_decodes (module_name : string) :
  confirm.token_module_name (confirm.overwrite_token module_name) = Some module_name.
Proof.
  unfold confirm.token_module_name, confirm.overwrite_token, split_on. simpl.
  by rewrite split_go_exhausted.
Qed.

(** X16: the overwrite token round-trips: the module name read back from
    the callback data of the "yes" button is the name the proposal was made
    for, for every name, underscores included. *)
Theorem overwrite_token_round_trip (module_name : string) :
  split_on "_" 2 (confirm.overwrite_token module_name) =
    ["overwrite"; "lm"; module_name] ∧
  confirm.token_module_name (confirm.overwrite_token module_name) = Some module_name.
Proof.
  split; [|apply token_decodes].
  unfold confirm.overwrite_token, split_on. simpl. by rewrite split_go_exhausted.
Qed.

(** ** The /lm command and the confirmation of an overwrite *)






(** X18: a /lm request that cannot be served (no document in the replied
    message, a file name that does not end in ".py", or a document Telegram
    cannot deliver) changes neither Catalog nor Registry nor artifact storage
    and runs no module code, whoever sends it. *)
Theorem lm_rejects_without_mutation (env : Env) (message : Message) (w w' : World)
    (r : Result unit) :
  reply_document message = None ∨
    (∃ document, reply_document message = Some document ∧
       (endswith (file_name document) ".py" = false ∨
        telegram_files env !! file_id document = None)) →
  load_module_handler env message w = (r, w') →
  r = Ret tt ∧ loaded_modules w' = loaded_modules w ∧
  modules_table w' = modules_table w ∧ files w' = files w ∧ calls w' = calls w ∧
  error_logs w' = error_logs w.
Proof.
  intros Hbad. unfold load_module_handler.
  unfold mbind at 1. unfold M_bind at 1.
  destruct (admin_required_result env message w) as (b & w0 & Heq & Hrest).
  destruct Hrest as (Hc & _ & Ht & _ & He & _ & Hf & Hcl & _).
  rewrite Heq. unfold mret, M_ret.
  destruct b; simpl; [|intros H; simplify_eq; by split_and!].
  destruct Hbad as [Hnone | (document & Hdoc & Hwhy)].
  - rewrite Hnone. unfold try_except, answer, modify. intros H. simplify_eq. by split_and!.
  - rewrite Hdoc. destruct (endswith (file_name document) ".py") eqn:Hpy; simpl.
    2:{ unfold try_except, answer, modify. intros H. simplify_eq. by split_and!. }
    destruct Hwhy as [? | Htele]; [done|].
    unfold try_except at 1. unfold mbind at 1. unfold M_bind at 1. unfold gets at 1.
    destruct (decide (is_Some (loaded_modules w0 !! drop_last3 (file_name document)))).
    + unfold answer, modify. intros H. simplify_eq. by split_and!.
    + unfold _load_module_from_file, download_file, try_except.
      unfold mbind, M_bind, raise, logger_error, answer, modify.
      rewrite Htele. simpl. intros H. simplify_eq. by split_and!.
Qed.

Lemma lm_rejects_without_mutation_witness :
  reply_document (lm_message 1 "foo.py" "file-9") =
    Some {| file_name := "foo.py"; file_id := "file-9" |} ∧
  telegram_files env_telegram !! "file-9" = None ∧
  files (snd (load_module_handler env_telegram (lm_message 1 "foo.py" "file-9") world0)) =
    files world0.
Proof.
  split; [reflexivity|]. split; [vm_compute; reflexivity|].
  destruct (lm_rejects_without_mutation env_telegram (lm_message 1 "foo.py" "file-9") world0
              (snd (load_module_handler env_telegram (lm_message 1 "foo.py" "file-9") world0))
              (fst (load_module_handler env_telegram (lm_message 1 "foo.py" "file-9") world0)))
    as (_ & _ & _ & Hf & _).
  - right. exists {| file_name := "foo.py"; file_id := "file-9" |}.
    split; [reflexivity|]. right. vm_compute. reflexivity.
  - vm_compute. reflexivity.
  - exact Hf.
Defined.

Import confirm.



(** X20: a confirmation that carries no usable token or whose question
    replies to no document changes nothing: the fault is caught, the actor
    gets a "module_error" answer, and Catalog, Registry, artifact storage and
    module code are untouched. *)
Theorem confirm_without_document_changes_nothing (env : Env) (callback : CallbackQuery)
    (w w' : World) (r : Result unit) :
  token_module_name (data callback) = None ∨
    reply_document (callback_message callback) = None →
  overwrite_module_callback env callback w = (r, w') →
  r = Ret tt ∧ loaded_modules w' = loaded_modules w ∧
  modules_table w' = modules_table w ∧ files w' = files w ∧ calls w' = calls w ∧
  sys_modules w' = sys_modules w ∧
  ∃ reply, outbox w' = outbox w ++ [reply] ∧ reply_key reply = "module_error".
Proof.
  intros Hbad. unfold overwrite_module_callback, try_except.
  unfold raise, mbind, M_bind, logger_error, manager.answer, modify.
  destruct (token_module_name (data callback)) as [name|] eqn:Htok.
  - destruct Hbad as [? | Hnone]; [done|]. rewrite Hnone. simpl.
    intros H. simplify_eq. simpl. split_and!; auto. by eexists.
  - simpl. intros H. simplify_eq. simpl. split_and!; auto. by eexists.
Qed.

Lemma confirm_without_document_changes_nothing_witness :
  reply_document (callback_message
     {| data := overwrite_token "foo";
        callback_message := {| from_user_id := 0; text := ""; reply_document := None |} |})
    = None ∧
  loaded_modules (snd (overwrite_module_callback env_telegram
     {| data := overwrite_token "foo";
        callback_message := {| from_user_id := 0; text := ""; reply_document := None |} |}
     world_foo_user)) = loaded_modules world_foo_user.
Proof.
  split; [reflexivity|].
  destruct (confirm_without_document_changes_nothing env_telegram
     {| data := overwrite_token "foo";
        callback_message := {| from_user_id := 0; text := ""; reply_document := None |} |}
     world_foo_user
     (snd (overwrite_module_callback env_telegram
        {| data := overwrite_token "foo";
           callback_message := {| from_user_id := 0; text := ""; reply_document := None |} |}
        world_foo_user))
     (fst (overwrite_module_callback env_telegram
        {| data := overwrite_token "foo";
           callback_message := {| from_user_id := 0; text := ""; reply_document := None |} |}
        world_foo_user)))
    as (_ & Hc & _); [right; reflexivity | vm_compute; reflexivity | exact Hc].
Defined.

(** ** Startup *)

Import startup.

Lemma load_each_spec (env : Env) (is_system : bool) (paths : list string) :
  ∀ (w w' : World) (r : Result unit),
  load_each env paths is_system w = (r, w') →
  files w' = files w ∧
  (∀ e, r = Raise e → exc_is_Exception e = false) ∧
  ∃ l, calls w' = calls w ++ l ∧
    (∀ c, c ∈ l →
       (∃ rc, c = CallRun rc) ∨
       ∃ p, p ∈ paths ∧ startswith (path_name p) "_" = false ∧
            (c = CallExec (path_stem p) ∨ c = CallRegister (path_stem p))) ∧
    (∀ u, r = Ret u → ∀ p, p ∈ paths → startswith (path_name p) "_" = false →
       is_Some (files w !! p) → has_file_loader env p = true →
       CallExec (path_stem p) ∈ l).
Proof.
  induction paths as [|p rest IH]; intros w w' r; simpl.
  - unfold mret, M_ret. intros H. simplify_eq. split_and!; [done | done |].
    exists []. rewrite app_nil_r. split_and!; auto.
    + intros c Hc. by apply elem_of_nil in Hc.
    + intros u _ p Hp. by apply elem_of_nil in Hp.
  - destruct (startswith (path_name p) "_") eqn:Hunder.
    + intros H. apply IH in H as (Hf & Hesc & l & Hl & Hshape & Hall).
      split_and!; auto. exists l. split_and!; auto.
      * intros c Hc. destruct (Hshape c Hc) as [? | (q & Hq & ? & ?)]; [by left|].
        right. exists q. split_and!; auto. by apply elem_of_cons; right.
      * intros u Hu q Hq Hnu Hfile Hloader.
        apply elem_of_cons in Hq as [-> | Hq]; [congruence|]. by eapply Hall.
    + unfold mbind, M_bind, try_except, mret, M_ret.
      destruct (load_module env p (path_stem p) is_system w) as [rl w2] eqn:Hload.
      pose proof (load_module_trace _ _ _ _ _ _ _ Hload)
        as (Hfiles & _ & _ & l1 & Hl1 & Hshape1 & Hcase).
      assert (∀ c, c ∈ l1 →
                (∃ rc, c = CallRun rc) ∨
                ∃ q, q ∈ p :: rest ∧ startswith (path_name q) "_" = false ∧
                     (c = CallExec (path_stem q) ∨ c = CallRegister (path_stem q)))
        as Hshape1'.
      { intros c Hc. destruct (Hshape1 c Hc) as [-> | [-> | (rc & -> & _)]].
        - right. exists p. split_and!; auto. by apply elem_of_cons; left.
        - right. exists p. split_and!; auto. by apply elem_of_cons; left.
        - left. by eexists. }
      destruct rl as [b|e].
      * intros H. apply IH in H as (Hf & Hesc & l2 & Hl2 & Hshape2 & Hall).
        split_and!; [congruence | done |].
        exists (l1 ++ l2). split_and!.
        -- by rewrite Hl2, Hl1, <- app_assoc.
        -- intros c Hc. apply elem_of_app in Hc as [Hc | Hc]; [by apply Hshape1'|].
           destruct (Hshape2 c Hc) as [? | (q & Hq & ? & ?)]; [by left|].
           right. exists q. split_and!; auto. by apply elem_of_cons; right.
        -- intros u Hu q Hq Hnu Hfile Hloader. apply elem_of_app.
           apply elem_of_cons in Hq as [-> | Hq].
           ++ left. destruct Hfile as [a Ha]. rewrite Ha, Hloader in Hcase.
              by destruct Hcase.
           ++ right. eapply Hall; eauto. by rewrite Hfiles.
      * destruct (load_module_outcome _ _ _ _ _ _ _ Hload)
          as [[_ Hesc] | (e' & w1 & _ & _ & ? & _)]; [|done].
        rewrite (Hesc e eq_refl). intros H. simplify_eq.
        split_and!; [done | by intros e' ?; simplify_eq; apply Hesc |].
        exists l1. split_and!; auto. intros u Hu. discriminate.
Qed.

(** X21: at startup a directory is loaded file by file, in the order the
    listing yields them: files whose name starts with an underscore are never
    run, the only module code run is that of listed files, under the stem of
    their name; a module that fails to load does not stop the others (when
    the call returns, every listed file that exists and has a loader has been
    executed); and the only fault that leaves
    [_load_modules_from_directory] is one outside the [Exception] hierarchy. *)
Theorem startup_loads_every_listed_file (env : Env) (directory : string)
    (paths : list string) (is_system : bool) (w w' : World) (r : Result unit) :
  _load_modules_from_directory env directory paths is_system w = (r, w') →
  (∀ e, r = Raise e → exc_is_Exception e = false) ∧
  ∃ l, calls w' = calls w ++ l ∧
    (∀ c, c ∈ l →
       (∃ rc, c = CallRun rc) ∨
       ∃ p, p ∈ paths ∧ startswith (path_name p) "_" = false ∧
            (c = CallExec (path_stem p) ∨ c = CallRegister (path_stem p))) ∧
    (∀ u, r = Ret u → ∀ p, p ∈ paths → startswith (path_name p) "_" = false →
       is_Some (files w !! p) → has_file_loader env p = true →
       CallExec (path_stem p) ∈ l).
Proof.
  unfold _load_modules_from_directory, try_except.
  destruct (load_each env paths is_system w) as [rb w1] eqn:Hbody.
  apply load_each_spec in Hbody as (_ & Hesc & l & Hl & Hshape & Hall).
  destruct rb as [u|e].
  - intros H. simplify_eq. split; [done|]. by exists l.
  - rewrite (Hesc e eq_refl). intros H. simplify_eq. split; [done|]. by exists l.
Qed.

Lemma startup_loads_every_listed_file_witness :
  fst (_load_modules_from_directory env0 "modules/user"
         ["modules/user/_private.py"; "modules/user/broken.py"; foo_path] false
         (set_files (insert "modules/user/broken.py" broken_artifact)
            (set_files (insert "modules/user/_private.py" foo_artifact) world_foo_file)))
    = Ret tt ∧
  calls (snd (_load_modules_from_directory env0 "modules/user"
         ["modules/user/_private.py"; "modules/user/broken.py"; foo_path] false
         (set_files (insert "modules/user/broken.py" broken_artifact)
            (set_files (insert "modules/user/_private.py" foo_artifact) world_foo_file))))
    = [CallExec "broken"; CallExec "foo"; CallRegister "foo"] ∧
  ∀ e, fst (_load_modules_from_directory env0 "modules/user"
         ["modules/user/_private.py"; "modules/user/broken.py"; foo_path] false
         (set_files (insert "modules/user/broken.py" broken_artifact)
            (set_files (insert "modules/user/_private.py" foo_artifact) world_foo_file)))
       = Raise e → exc_is_Exception e = false.
Proof.
  split; [vm_compute; reflexivity|]. split; [vm_compute; reflexivity|].
  apply (startup_loads_every_listed_file env0 "modules/user"
           ["modules/user/_private.py"; "modules/user/broken.py"; foo_path] false
           (set_files (insert "modules/user/broken.py" broken_artifact)
              (set_files (insert "modules/user/_private.py" foo_artifact) world_foo_file))
           (snd (_load_modules_from_directory env0 "modules/user"
              ["modules/user/_private.py"; "modules/user/broken.py"; foo_path] false
              (set_files (insert "modules/user/broken.py" broken_artifact)
                 (set_files (insert "modules/user/_private.py" foo_artifact)
                    world_foo_file))))).
  vm_compute. reflexivity.
Defined.

(** X22: Catalog and Registry can disagree about the origin class. When a
    name first loaded as a System module is loaded again as a User module
    (what an overwrite through /lm does), the Catalog lists the module as a
    User module and serves the new descriptor, while its Registry row still
    says System, now with the new path: the module shows up in the user
    listing and yet cannot be deleted. *)
Theorem origin_classes_can_diverge (env : Env) (system_path user_path module_name : string)
    (w w1 w2 : World) :
  modules_table w !! module_name = None →
  load_module env system_path module_name true w = (Ret true, w1) →
  load_module env user_path module_name false w1 = (Ret true, w2) →
  (∃ mi, loaded_modules w2 !! module_name = Some mi ∧ ModuleInfo.is_system mi = false) ∧
  is_Some (get_all_user_modules w2 !! module_name) ∧
  (∃ row, modules_table w2 !! module_name = Some row ∧
     ModuleRecord.is_system row = true ∧ ModuleRecord.file_path row = user_path) ∧
  (∀ res w3, delete_module module_name w2 = (res, w3) →
     res = Ret false ∧ modules_table w3 = modules_table w2).
Proof.
  intros Hfresh H1 H2.
  apply load_module_success in H1 as (a1 & mi1 & _ & _ & _ & Ht1 & _);
    [|intros r Hr; congruence].
  assert (modules_table w1 !! module_name =
            Some (ModuleRecord.mk (modules_next_id w) module_name system_path true true
                    (now env) (now env))) as Hrow1.
  { rewrite Ht1, lookup_insert_eq. unfold upserted_row. by rewrite Hfresh. }
  apply load_module_success in H2 as (a2 & mi2 & _ & _ & Hc2 & Ht2 & _);
    [|intros r Hr; rewrite Hrow1 in Hr; by simplify_eq].
  assert (modules_table w2 !! module_name =
            Some (ModuleRecord.mk (modules_next_id w) module_name user_path true true
                    (now env) (now env))) as Hrow2.
  { rewrite Ht2, lookup_insert_eq. unfold upserted_row. by rewrite Hrow1. }
  assert (loaded_modules w2 !! module_name = Some (ModuleInfo.set_is_system false mi2))
    as Hcat by (by rewrite Hc2, lookup_insert_eq).
  split_and!.
  - eexists. by split.
  - eexists. apply user_view_lookup. by split.
  - eexists. by split.
  - intros res w3. apply delete_module_refused. right. eexists. by split.
Qed.

Lemma origin_classes_can_diverge_witness :
  modules_table (set_files (insert "modules/system/bar.py" bar_artifact)
                   (set_files (insert "modules/user/bar.py" foo_artifact) world0))
    !! "bar" = None ∧
  is_Some (get_all_user_modules
     (snd (load_module env0 "modules/user/bar.py" "bar" false
        (snd (load_module env0 "modules/system/bar.py" "bar" true
           (set_files (insert "modules/system/bar.py" bar_artifact)
              (set_files (insert "modules/user/bar.py" foo_artifact) world0))))))
     !! "bar") ∧
  ∃ row, modules_table
     (snd (load_module env0 "modules/user/bar.py" "bar" false
        (snd (load_module env0 "modules/system/bar.py" "bar" true
           (set_files (insert "modules/system/bar.py" bar_artifact)
              (set_files (insert "modules/user/bar.py" foo_artifact) world0))))))
     !! "bar" = Some row ∧
     ModuleRecord.is_system row = true ∧ ModuleRecord.file_path row = "modules/user/bar.py".
Proof.
  split; [vm_compute; reflexivity|].
  destruct (origin_classes_can_diverge env0 "modules/system/bar.py" "modules/user/bar.py"
     "bar"
     (set_files (insert "modules/system/bar.py" bar_artifact)
        (set_files (insert "modules/user/bar.py" foo_artifact) world0))
     (snd (load_module env0 "modules/system/bar.py" "bar" true
        (set_files (insert "modules/system/bar.py" bar_artifact)
           (set_files (insert "modules/user/bar.py" foo_artifact) world0))))
     (snd (load_module env0 "modules/user/bar.py" "bar" false
        (snd (load_module env0 "modules/system/bar.py" "bar" true
           (set_files (insert "modules/system/bar.py" bar_artifact)
              (set_files (insert "modules/user/bar.py" foo_artifact) world0)))))))
    as (_ & Hview & Hrow & _); [vm_compute; reflexivity..|].
  split; [exact Hview | exact Hrow].
Defined.

(** ** Listing the Registry, bootstrapping the database, escaping *)

Import listing.

Lemma selected_rows_spec (is_system : option bool) (w : World) (r : ModuleRecord.t) :
  registry_wf w →
  r ∈ filter (λ r, row_selected is_system r = true) (map_to_list (modules_table w)).*2 ↔
  modules_table w !! ModuleRecord.name r = Some r ∧
  match is_system with
  | Some b => ModuleRecord.is_system r = b
  | None => True
  end.
Proof.
  intros Hwf. rewrite list_elem_of_filter, list_elem_of_fmap. unfold row_selected. split.
  - intros (Hsel & [k r'] & -> & Hin). apply elem_of_map_to_list in Hin. simpl in *.
    rewrite (wf_keyed w Hwf k r' Hin). split; [done|].
    apply andb_true_iff in Hsel as [_ Hsel].
    destruct is_system as [b|]; [|done]. by apply Bool.eqb_prop in Hsel.
  - intros [Hrow Hsys]. split.
    + rewrite (wf_active w Hwf _ _ Hrow). simpl.
      destruct is_system as [b|]; [|done]. rewrite Hsys. apply Bool.eqb_reflx.
    + exists (ModuleRecord.name r, r). split; [done|]. by apply elem_of_map_to_list.
Qed.

(** X23: the listing shows every registered module. On a well-formed
    Registry with the storage answering, [get_all_modules] returns exactly
    the rows of the given origin class (all rows without a filter): since no
    operation ever deactivates a row, the [is_active] condition excludes
    nothing, and a module that was merely unloaded is still listed. The call
    never raises; when the storage faults it answers the empty list. *)
Theorem listing_shows_every_registered_module (is_system : option bool) (w : World) :
  registry_wf w →
  (db_faults w = [] →
     ∃ rows, get_all_modules is_system w = (Ret rows, w) ∧
       ∀ r, r ∈ rows ↔
            modules_table w !! ModuleRecord.name r = Some r ∧
            match is_system with
            | Some b => ModuleRecord.is_system r = b
            | None => True
            end) ∧
  (∀ res w', get_all_modules is_system w = (res, w') →
     ∃ rows, res = Ret rows ∧ modules_table w' = modules_table w ∧
       (∀ r, r ∈ rows → modules_table w !! ModuleRecord.name r = Some r) ∧
       ((∃ err rest, db_faults w = Some err :: rest) → rows = [])).
Proof.
  intros Hwf. split.
  - intros Hf. unfold get_all_modules. unfold_db. unfold_monad. rewrite Hf. simpl.
    eexists. split; [reflexivity|]. intros r. by apply selected_rows_spec.
  - intros res w'. unfold get_all_modules. unfold_db. unfold_monad.
    destruct (db_faults w) as [|[err|] fs] eqn:E; simpl; intros H; simplify_eq; simpl;
      eexists; (split; [reflexivity|]); split_and!; auto.
    + intros r Hr. by eapply selected_rows_spec in Hr as [? _].
    + intros (? & ? & ?). done.
    + intros r Hr. by apply elem_of_nil in Hr.
    + intros r Hr. by eapply selected_rows_spec in Hr as [? _].
    + intros (? & ? & ?). done.
Qed.

Lemma world_foo_user_wf : registry_wf world_foo_user.
Proof.
  split; intros *; simpl; rewrite ?lookup_insert; repeat case_decide;
    rewrite ?lookup_empty; intros; simplify_eq; simpl; auto.
Qed.

Lemma listing_shows_every_registered_module_witness :
  loaded_modules (snd (unload_module "foo" world_foo_user)) !! "foo" = None ∧
  ∃ rows, get_all_modules None (snd (unload_module "foo" world_foo_user))
            = (Ret rows, snd (unload_module "foo" world_foo_user)) ∧
    foo_record ∈ rows.
Proof.
  split; [vm_compute; reflexivity|].
  assert (registry_wf (snd (unload_module "foo" world_foo_user))) as Hwf.
  { apply (registry_wf_same world_foo_user); [reflexivity..|]. exact world_foo_user_wf. }
  destruct (proj1 (listing_shows_every_registered_module None
                     (snd (unload_module "foo" world_foo_user)) Hwf) eq_refl)
    as (rows & Heq & Hrows).
  exists rows. split; [exact Heq|]. apply Hrows. split; [vm_compute; reflexivity | exact I].
Defined.

(** X24: [init_db] bootstraps the principal and nothing else. When it
    returns, a non-zero configured [admin_id] is in the admins table; the
    table only ever gains that one id, and gains nothing when [admin_id] is
    0 or the id is already listed, so a second run adds nothing. A storage
    fault is logged and re-raised with the table unchanged. Catalog and
    Registry are never touched. *)
Theorem init_db_bootstraps_principal (env : Env) (w w' : World) (r : Result unit) :
  init_db env w = (r, w') →
  (r = Ret tt → admin_id env ≠ 0%Z → admin_id env ∈ admins w') ∧
  (admins w' = admins w ∨
   (admin_id env ≠ 0%Z ∧ (admin_id env ∉ admins w) ∧
    admins w' = {[admin_id env]} ∪ admins w)) ∧
  (admin_id env = 0%Z ∨ admin_id env ∈ admins w → admins w' = admins w) ∧
  (∀ e, r = Raise e → exc_is_Exception e = true ∧ admins w' = admins w) ∧
  loaded_modules w' = loaded_modules w ∧ modules_table w' = modules_table w.
Proof.
  unfold init_db. unfold_db. unfold_monad.
  destruct (db_faults w) as [|[err1|] fs1] eqn:E1; simpl; rewrite ?E1; simpl.
  2:{ intros H. simplify_eq. simpl. split_and!; auto; try done.
      intros e He. by simplify_eq. }
  - destruct (decide (admin_id env = 0%Z)) as [Hz|Hz]; simpl.
    { intros H. simplify_eq. simpl. split_and!; auto; done. }
    rewrite E1. simpl.
    destruct (bool_decide (admin_id env ∈ admins w)) eqn:Hin; simpl.
    + apply bool_decide_eq_true in Hin. intros H. simplify_eq. simpl.
      split_and!; auto; done.
    + apply bool_decide_eq_false in Hin. rewrite E1. simpl.
      intros H. simplify_eq. simpl. split_and!; auto; try done.
      * intros _ _. apply elem_of_union. left. by apply elem_of_singleton.
      * intros [? | ?]; done.
  - destruct fs1 as [|[err2|] fs2]; simpl.
    3:{ destruct (decide (admin_id env = 0%Z)) as [Hz|Hz]; simpl.
        { intros H. simplify_eq. simpl. split_and!; auto; done. }
        destruct fs2 as [|[err3|] fs3]; simpl.
        - destruct (bool_decide (admin_id env ∈ admins w)) eqn:Hin; simpl.
          + apply bool_decide_eq_true in Hin. intros H. simplify_eq. simpl.
            split_and!; auto; done.
          + apply bool_decide_eq_false in Hin.
            intros H. simplify_eq. simpl. split_and!; auto; try done.
            * intros _ _. apply elem_of_union. left. by apply elem_of_singleton.
            * intros [? | ?]; done.
        - intros H. simplify_eq. simpl. split_and!; auto; try done.
          intros e He. by simplify_eq.
        - destruct (bool_decide (admin_id env ∈ admins w)) eqn:Hin; simpl.
          + apply bool_decide_eq_true in Hin. intros H. simplify_eq. simpl.
            split_and!; auto; done.
          + apply bool_decide_eq_false in Hin.
            destruct fs3 as [|[err4|] fs4]; simpl;
              intros H; simplify_eq; simpl; split_and!; auto; try done;
              try (intros _ _; apply elem_of_union; left; by apply elem_of_singleton);
              try (intros [? | ?]; done);
              try (intros e He; by simplify_eq). }
    + destruct (decide (admin_id env = 0%Z)) as [Hz|Hz]; simpl.
      { intros H. simplify_eq. simpl. split_and!; auto; done. }
      destruct (bool_decide (admin_id env ∈ admins w)) eqn:Hin; simpl.
      * apply bool_decide_eq_true in Hin. intros H. simplify_eq. simpl.
        split_and!; auto; done.
      * apply bool_decide_eq_false in Hin.
        intros H. simplify_eq. simpl. split_and!; auto; try done.
        -- intros _ _. apply elem_of_union. left. by apply elem_of_singleton.
        -- intros [? | ?]; done.
    + intros H. simplify_eq. simpl. split_and!; auto; try done.
      intros e He. by simplify_eq.
Qed.

Lemma init_db_bootstraps_principal_witness :
  fst (init_db env0 world0) = Ret tt ∧
  admin_id env0 ∈ admins (snd (init_db env0 world0)) ∧
  admins (snd (init_db env0 (snd (init_db env0 world0)))) =
    admins (snd (init_db env0 world0)).
Proof.
  split; [vm_compute; reflexivity|]. split.
  - apply (proj1 (init_db_bootstraps_principal env0 world0 (snd (init_db env0 world0))
                    (fst (init_db env0 world0)) ltac:(vm_compute; reflexivity)));
      [vm_compute; reflexivity | discriminate].
  - apply (proj1 (proj2 (proj2 (init_db_bootstraps_principal env0
                    (snd (init_db env0 world0))
                    (snd (init_db env0 (snd (init_db env0 world0))))
                    (fst (init_db env0 (snd (init_db env0 world0))))
                    ltac:(vm_compute; reflexivity))))).
    right.
    apply (proj1 (init_db_bootstraps_principal env0 world0 (snd (init_db env0 world0))
                    (fst (init_db env0 world0)) ltac:(vm_compute; reflexivity)));
      [vm_compute; reflexivity | discriminate].
Defined.

Lemma contains_char_app (c : Ascii.ascii) (s1 s2 : string) :
  contains_char c (s1 +:+ s2) = contains_char c s1 || contains_char c s2.
Proof.
  induction s1 as [|d s1 IH]; [done|].
  change (Ascii.eqb d c || contains_char c (s1 +:+ s2) =
          (Ascii.eqb d c || contains_char c s1) || contains_char c s2).
  by rewrite IH, orb_assoc.
Qed.

Lemma replace_char_removes (c : Ascii.ascii) (by_ s : string) :
  contains_char c by_ = false → contains_char c (replace_char c by_ s) = false.
Proof.
  intros Hby. induction s as [|d s IH]; [done|]. simpl.
  destruct (Ascii.eqb d c) eqn:Hd.
  - by rewrite contains_char_app, Hby, IH.
  - simpl. by rewrite Hd, IH.
Qed.

Lemma replace_char_keeps_out (c c' : Ascii.ascii) (by_ s : string) :
  contains_char c' by_ = false → contains_char c' s = false →
  contains_char c' (replace_char c by_ s) = false.
Proof.
  intros Hby. induction s as [|d s IH]; [done|]. simpl. intros Hs.
  apply orb_false_iff in Hs as [Hd Hs].
  destruct (Ascii.eqb d c).
  - by rewrite contains_char_app, Hby, IH.
  - simpl. by rewrite Hd, IH.
Qed.

Lemma replace_char_absent (c : Ascii.ascii) (by_ s : string) :
  contains_char c s = false → replace_char c by_ s = s.
Proof.
  induction s as [|d s IH]; [done|]. simpl. intros Hs.
  apply orb_false_iff in Hs as [Hd Hs]. by rewrite Hd, IH.
Qed.

(** X25: the escaping used for the help texts leaves no angle bracket: the
    escaped text contains neither '<' nor '>', whatever the module name,
    description or command text was; a text without angle brackets is
    returned unchanged, so escaping twice is escaping once. *)
Theorem safe_text_has_no_angle_brackets (s : string) :
  contains_char "<" (safe_text s) = false ∧
  contains_char ">" (safe_text s) = false ∧
  (contains_char "<" s = false → contains_char ">" s = false → safe_text s = s) ∧
  safe_text (safe_text s) = safe_text s.
Proof.
  assert (contains_char "<" (safe_text s) = false) as Hlt.
  { unfold safe_text. apply replace_char_keeps_out; [done|].
    by apply replace_char_removes. }
  assert (contains_char ">" (safe_text s) = false) as Hgt.
  { unfold safe_text. by apply replace_char_removes. }
  assert (∀ t, contains_char "<" t = false → contains_char ">" t = false →
               safe_text t = t) as Hid.
  { intros t H1 H2. unfold safe_text. rewrite (replace_char_absent "<") by done.
    by apply replace_char_absent. }
  split_and!; auto.
Qed.

Lemma safe_text_has_no_angle_brackets_witness :
  contains_char "<" "lm" = false ∧ contains_char ">" "lm" = false ∧ safe_text "lm" = "lm".
Proof.
  split; [reflexivity|]. split; [reflexivity|].
  apply (proj1 (proj2 (proj2 (safe_text_has_no_angle_brackets "lm")))); reflexivity.
Defined.
